(** * Order Book Streamer: the FastAPI controller

    A shallow embedding of [src/microservices/python-server/main.py]: the
    handlers [start_streaming], [get_order_book], [get_status] and
    [get_microservices_status], the Python string operations they use, and
    the properties of the controller that follow from the code; with it,
    the earlier server of [src/history_version/server/main.py] and the
    file inspector of [src/123.py].

    Strings are Rocq strings whose characters stand for the code points
    below 256.  The HTTP client, the file system and the clock are events of
    a small free monad; exceptions are raised and caught as in Python. *)

From Stdlib Require Import String Ascii List ZArith NArith Bool Lia.
From Stdlib Require Import DecimalString.
Import ListNotations.
Open Scope string_scope.

(* ================================================================== *)
(** * Python strings *)
(* ================================================================== *)

Module PyStr.

Definition LF : ascii := "010"%char.
Definition CR : ascii := "013"%char.

Definition is_lf (c : ascii) : bool := Ascii.eqb c LF.
Definition is_cr (c : ascii) : bool := Ascii.eqb c CR.

(** [str.isspace] on one character, for the code points below 256:
    U+0009..U+000D, U+001C..U+0020, U+0085 and U+00A0. *)
Definition isspace (c : ascii) : bool :=
  let n := N_of_ascii c in
  ((9 <=? n) && (n <=? 13) || (28 <=? n) && (n <=? 32)
   || (n =? 133) || (n =? 160))%N.

(** [s.lstrip()] *)
Fixpoint lstrip (s : string) : string :=
  match s with
  | EmptyString => EmptyString
  | String c s' => if isspace c then lstrip s' else s
  end.

(** [s.rstrip()] *)
Fixpoint rstrip (s : string) : string :=
  match s with
  | EmptyString => EmptyString
  | String c s' =>
      match rstrip s' with
      | EmptyString => if isspace c then EmptyString else String c EmptyString
      | r => String c r
      end
  end.

(** [s.strip()] *)
Definition strip (s : string) : string := lstrip (rstrip s).

(** Truth value of a string: [if s:] *)
Definition truthy (s : string) : bool :=
  match s with EmptyString => false | String _ _ => true end.

(** [s.split('\n')]: never empty, [''.split('\n') == ['']]. *)
Fixpoint split_nl (s : string) : list string :=
  match s with
  | EmptyString => [EmptyString]
  | String c s' =>
      if is_lf c then EmptyString :: split_nl s'
      else match split_nl s' with
           | l :: ls => String c l :: ls
           | [] => [String c EmptyString]
           end
  end.


(** Text-mode reading with the default [newline=None]: ["\r\n"] and a lone
    ["\r"] both arrive as ["\n"]. *)
Fixpoint universal_newlines (s : string) : string :=
  match s with
  | EmptyString => EmptyString
  | String c s' =>
      if is_cr c then
        match s' with
        | String c' s'' =>
            if is_lf c' then String LF (universal_newlines s'')
            else String LF (universal_newlines s')
        | EmptyString => String LF EmptyString
        end
      else String c (universal_newlines s')
  end.

(** [f.readlines()] on the translated text: the lines with their
    terminating ["\n"] kept; the last line may lack one. *)
Fixpoint splitlines_keepends (s : string) : list string :=
  match s with
  | EmptyString => []
  | String c s' =>
      if is_lf c then String c EmptyString :: splitlines_keepends s'
      else match splitlines_keepends s' with
           | l :: ls => String c l :: ls
           | [] => [String c EmptyString]
           end
  end.

Definition readlines (content : string) : list string :=
  splitlines_keepends (universal_newlines content).

(** No line separator of either reading path occurs in [s]. *)
Fixpoint no_newline (s : string) : bool :=
  match s with
  | EmptyString => true
  | String c s' => negb (is_lf c) && negb (is_cr c) && no_newline s'
  end.

(** [str(n)] for an integer. *)
Definition str_int (n : Z) : string := NilZero.string_of_int (Z.to_int n).

End PyStr.

(* ================================================================== *)
(** * JSON values as Python sees them *)
(* ================================================================== *)

Set Warnings "-register-all".

(** What [json.loads] returns: [None], [bool], [int], [float], [str],
    [list] and [dict] (in insertion order).  A finite float is kept as its
    literal; [JNonFinite] is a float that is [nan], [inf] or [-inf], which
    [json.loads] gives for [NaN], [Infinity], [-Infinity] and for a literal
    too large for a float. *)
Inductive json : Type :=
| JNone
| JBool (b : bool)
| JInt (n : Z)
| JFloat (literal : string)
| JNonFinite (literal : string)
| JStr (s : string)
| JList (items : list json)
| JDict (items : list (string * json)).

(** The JSON decoder is library code.  [json_loads text] is [Some v] when
    [json.loads(text)] returns [v], and [None] when it raises.  What it
    raises is then a [json.JSONDecodeError] with the message
    [json_error text], unless [json_other text] is [Some msg]: then it is
    another exception, with the message [msg], as the [ValueError] for an
    integer literal of more than 4300 digits and the [RecursionError] for
    nesting beyond the interpreter's limit. *)
Class JSONDecoder : Type := {
  json_loads : string -> option json;
  json_error : string -> string;
  json_other : string -> option string
}.

(** The three ways a call of [json.loads] ends. *)
Inductive Decoded : Type :=
| Decodes (v : json)
| DecodeError (msg : string)
| OtherError (msg : string).

Definition json_decode {decoder : JSONDecoder} (text : string) : Decoded :=
  match json_loads text with
  | Some v => Decodes v
  | None =>
      match json_other text with
      | Some msg => OtherError msg
      | None => DecodeError (json_error text)
      end
  end.

(** No float of the value is [nan] or infinite: what
    [json.dumps(..., allow_nan=False)] asks of the value it renders. *)
Fixpoint json_finite (v : json) : bool :=
  match v with
  | JNonFinite _ => false
  | JList items => forallb json_finite items
  | JDict items => forallb (fun kv => json_finite (snd kv)) items
  | _ => true
  end.

(** ** A reference decoder and encoder

    A decoder for the JSON documents of the examples: objects, arrays,
    strings with the two-character escapes, numbers, [true], [false],
    [null], [NaN], [Infinity] and [-Infinity], with JSON's own white space
    around tokens, and with the limit of 4300 digits on integer literals.
    ["\u"] escapes are outside this fragment and are refused, and nesting
    is not limited.  The general theorems below hold for every decoder;
    this one instantiates them. *)

Module JsonRef.

Definition is_ws (c : ascii) : bool :=
  let n := N_of_ascii c in ((n =? 32) || (n =? 9) || (n =? 10) || (n =? 13))%N.

Fixpoint skip_ws (s : string) : string :=
  match s with
  | String c s' => if is_ws c then skip_ws s' else s
  | EmptyString => EmptyString
  end.

Definition is_digit (c : ascii) : bool :=
  let n := N_of_ascii c in ((48 <=? n) && (n <=? 57))%N.

Definition digit_val (c : ascii) : Z := Z.of_N (N_of_ascii c) - 48.

(** The leading digits of [s] and what follows them. *)
Fixpoint take_digits (s : string) : string * string :=
  match s with
  | String c s' =>
      if is_digit c then let (d, r) := take_digits s' in (String c d, r)
      else (EmptyString, s)
  | EmptyString => (EmptyString, EmptyString)
  end.

Fixpoint digits_val (acc : Z) (d : string) : Z :=
  match d with
  | String c d' => digits_val (10 * acc + digit_val c) d'
  | EmptyString => acc
  end.

Definition strip_prefix (p s : string) : option string :=
  if String.prefix p s
  then Some (substring (String.length p) (String.length s - String.length p) s)
  else None.

Definition unescape (c : ascii) : option ascii :=
  match c with
  | "034"%char => Some "034"%char
  | "\"%char => Some "\"%char
  | "/"%char => Some "/"%char
  | "b"%char => Some "008"%char
  | "f"%char => Some "012"%char
  | "n"%char => Some "010"%char
  | "r"%char => Some "013"%char
  | "t"%char => Some "009"%char
  | _ => None
  end.

(** The body of a string literal, after its opening quote. *)
Fixpoint string_body (s : string) : option (string * string) :=
  match s with
  | EmptyString => None
  | String c s' =>
      if Ascii.eqb c "034"%char then Some (EmptyString, s')
      else if Ascii.eqb c "\"%char then
        match s' with
        | String e s'' =>
            match unescape e, string_body s'' with
            | Some c', Some (body, r) => Some (String c' body, r)
            | _, _ => None
            end
        | EmptyString => None
        end
      else if (N_of_ascii c <? 32)%N then None
      else match string_body s' with
           | Some (body, r) => Some (String c body, r)
           | None => None
           end
  end.

(** The optional fraction and exponent of a number. *)
Definition fraction (s : string) : option (string * string) :=
  match s with
  | String "."%char s' =>
      match take_digits s' with
      | (EmptyString, _) => None
      | (d, r) => Some (String "."%char d, r)
      end
  | _ => Some (EmptyString, s)
  end.

Definition exponent (s : string) : option (string * string) :=
  match s with
  | String c s' =>
      if Ascii.eqb c "e"%char || Ascii.eqb c "E"%char then
        let (sign, s1) :=
          match s' with
          | String g s'' =>
              if Ascii.eqb g "+"%char || Ascii.eqb g "-"%char
              then (String g EmptyString, s'') else (EmptyString, s')
          | EmptyString => (EmptyString, s')
          end in
        match take_digits s1 with
        | (EmptyString, _) => None
        | (d, r) => Some (String c (sign ++ d), r)
        end
      else Some (EmptyString, s)
  | EmptyString => Some (EmptyString, s)
  end.

(** The value of an exponent [e...], zero for none. *)
Definition exponent_val (e : string) : Z :=
  match e with
  | String _ (String "-"%char d) => (- digits_val 0 d)%Z
  | String _ (String "+"%char d) => digits_val 0 d
  | String _ d => digits_val 0 d
  | EmptyString => 0%Z
  end.

(** A decimal literal that [float] rounds to infinity: its value is at
    least [2^1024 - 2^970], half an ulp above the largest float. *)
Definition overflows (int_digits fraction_digits : string) (e : string) : bool :=
  let mantissa := digits_val 0 (int_digits ++ fraction_digits) in
  let scale := (exponent_val e - Z.of_nat (String.length fraction_digits))%Z in
  let threshold := (2 ^ 1024 - 2 ^ 970)%Z in
  (if mantissa =? 0 then false
   else if 400 <? scale then true
   else if 0 <=? scale then threshold <=? mantissa * 10 ^ scale
   else if Z.of_nat (String.length (int_digits ++ fraction_digits)) <=? - scale
        then false
   else threshold * 10 ^ (- scale) <=? mantissa)%Z.

(** How the decoder leaves a value: parsed, with the text after it;
    refused, with [JSONDecodeError]; or with another exception. *)
Inductive Parsed : Type :=
| Ok (v : json) (rest : string)
| Refused
| Boom (msg : string).

Definition digit_limit_message (digits : nat) : string :=
  "Exceeds the limit (4300 digits) for integer string conversion: value has "
    ++ PyStr.str_int (Z.of_nat digits)
    ++ " digits; use sys.set_int_max_str_digits() to increase the limit".

Definition number (s : string) : Parsed :=
  let (neg, s1) :=
    match s with
    | String "-"%char s' => (true, s')
    | _ => (false, s)
    end in
  let sign := if neg then "-" else EmptyString in
  match take_digits s1 with
  | (EmptyString, _) =>
      match neg, strip_prefix "Infinity" s1 with
      | true, Some r => Ok (JNonFinite "-Infinity") r
      | _, _ => Refused
      end
  | (String d0 ds as d, r) =>
      if Ascii.eqb d0 "0"%char && PyStr.truthy ds then Refused
      else
        match fraction r with
        | None => Refused
        | Some (f, r1) =>
            match exponent r1 with
            | None => Refused
            | Some (e, r2) =>
                match f, e with
                | EmptyString, EmptyString =>
                    if (4300 <? String.length d)%nat
                    then Boom (digit_limit_message (String.length d))
                    else
                      let n := digits_val 0 d in
                      Ok (JInt (if neg then - n else n)) r2
                | _, _ =>
                    let fraction_digits :=
                      match f with
                      | String _ fd => fd
                      | EmptyString => EmptyString
                      end in
                    if overflows d fraction_digits e
                    then Ok (JNonFinite (sign ++ d ++ f ++ e)) r2
                    else Ok (JFloat (sign ++ d ++ f ++ e)) r2
                end
            end
        end
  end.

(** [d[k] = v] on a dictionary in insertion order. *)
Fixpoint dict_set (d : list (string * json)) (k : string) (v : json)
  : list (string * json) :=
  match d with
  | [] => [(k, v)]
  | (k', v') :: d' =>
      if String.eqb k' k then (k, v) :: d' else (k', v') :: dict_set d' k v
  end.

(** One value at the head of [s]; [fuel] bounds the nesting and the
    number of items, the length of the text is enough. *)
Fixpoint value (fuel : nat) (s : string) : Parsed :=
  match fuel with
  | O => Refused
  | S fuel' =>
      let elements :=
        fix elements (n : nat) (acc : list json) (s : string) : Parsed :=
          match n with
          | O => Refused
          | S n' =>
              match value fuel' (skip_ws s) with
              | Ok v r =>
                  match skip_ws r with
                  | String ","%char r' => elements n' (acc ++ [v])%list r'
                  | String "]"%char r' => Ok (JList (acc ++ [v])%list) r'
                  | _ => Refused
                  end
              | Refused => Refused
              | Boom msg => Boom msg
              end
          end in
      let members :=
        fix members (n : nat) (acc : list (string * json)) (s : string) : Parsed :=
          match n with
          | O => Refused
          | S n' =>
              match skip_ws s with
              | String "034"%char s1 =>
                  match string_body s1 with
                  | Some (k, r0) =>
                      match skip_ws r0 with
                      | String ":"%char r1 =>
                          match value fuel' (skip_ws r1) with
                          | Ok v r =>
                              match skip_ws r with
                              | String ","%char r' => members n' (dict_set acc k v) r'
                              | String "}"%char r' => Ok (JDict (dict_set acc k v)) r'
                              | _ => Refused
                              end
                          | Refused => Refused
                          | Boom msg => Boom msg
                          end
                      | _ => Refused
                      end
                  | None => Refused
                  end
              | _ => Refused
              end
          end in
      match s with
      | String "{"%char r =>
          match skip_ws r with
          | String "}"%char r' => Ok (JDict []) r'
          | _ => members fuel' [] r
          end
      | String "["%char r =>
          match skip_ws r with
          | String "]"%char r' => Ok (JList []) r'
          | _ => elements fuel' [] r
          end
      | String "034"%char r =>
          match string_body r with
          | Some (b, r') => Ok (JStr b) r'
          | None => Refused
          end
      | _ =>
          match strip_prefix "null" s, strip_prefix "true" s, strip_prefix "false" s with
          | Some r, _, _ => Ok JNone r
          | _, Some r, _ => Ok (JBool true) r
          | _, _, Some r => Ok (JBool false) r
          | _, _, _ =>
              match strip_prefix "NaN" s, strip_prefix "Infinity" s with
              | Some r, _ => Ok (JNonFinite "NaN") r
              | _, Some r => Ok (JNonFinite "Infinity") r
              | _, _ => number s
              end
          end
      end
  end.

(** [json.loads]: one value, white space around it, nothing after it. *)
Definition loads (s : string) : option json :=
  match value (S (String.length s)) (skip_ws s) with
  | Ok v r =>
      match skip_ws r with
      | EmptyString => Some v
      | _ => None
      end
  | _ => None
  end.

(** The message of the exception that is no [JSONDecodeError]. *)
Definition other (s : string) : option string :=
  match value (S (String.length s)) (skip_ws s) with
  | Boom msg => Some msg
  | _ => None
  end.

Definition DQ : string := String "034"%char EmptyString.

Definition escape (c : ascii) : string :=
  match c with
  | "034"%char => String "\"%char DQ
  | "\"%char => "\\"
  | "008"%char => "\b"
  | "012"%char => "\f"
  | "010"%char => "\n"
  | "013"%char => "\r"
  | "009"%char => "\t"
  | _ => String c EmptyString
  end.

Fixpoint escape_string (s : string) : string :=
  match s with
  | EmptyString => EmptyString
  | String c s' => escape c ++ escape_string s'
  end.

Fixpoint sep_by (sep : string) (parts : list string) : string :=
  match parts with
  | [] => EmptyString
  | [p] => p
  | p :: ps => p ++ sep ++ sep_by sep ps
  end.

(** [json.dumps] with its default separators. *)
Fixpoint dumps (v : json) : string :=
  match v with
  | JNone => "null"
  | JBool true => "true"
  | JBool false => "false"
  | JInt n => PyStr.str_int n
  | JFloat lit => lit
  | JNonFinite lit => lit
  | JStr s => DQ ++ escape_string s ++ DQ
  | JList items => "[" ++ sep_by ", " (map dumps items) ++ "]"
  | JDict items =>
      "{" ++ sep_by ", "
               (map (fun kv => DQ ++ escape_string (fst kv) ++ DQ ++ ": "
                                  ++ dumps (snd kv)) items) ++ "}"
  end.

(** Writes a double quote for every single quote, to spell JSON texts. *)
Fixpoint dq (s : string) : string :=
  match s with
  | EmptyString => EmptyString
  | String c s' =>
      String (if Ascii.eqb c "'"%char then "034"%char else c) (dq s')
  end.


End JsonRef.

#[export] Instance reference_decoder : JSONDecoder := {
  json_loads := JsonRef.loads;
  json_error := fun _ => "Expecting value";
  json_other := JsonRef.other
}.

(* ================================================================== *)
(** * Exceptions, events and programs *)
(* ================================================================== *)

(** The exceptions the handlers tell apart: those of [requests]
    ([requests.exceptions.RequestException] and its subclasses),
    FastAPI's [HTTPException], and every other [Exception]. *)
Inductive PyExc : Type :=
| RequestException (msg : string)
| HTTPException (status_code : Z) (detail : string)
| OtherException (msg : string).

(** [str(e)].  Starlette's [HTTPException.__str__] is
    [f"{self.status_code}: {self.detail}"]. *)
Definition str_exc (e : PyExc) : string :=
  match e with
  | RequestException msg => msg
  | HTTPException code detail => PyStr.str_int code ++ ": " ++ detail
  | OtherException msg => msg
  end.

Inductive PyResult (A : Type) : Type :=
| Value (a : A)
| Exc (e : PyExc).
Arguments Value {A} a.
Arguments Exc {A} e.

Inductive Method : Type := GET | POST.

Record Request : Type := {
  method : Method;
  url : string;
  timeout : Z
}.

Record Response : Type := {
  status_code : Z;
  text : string
}.

(** The two files the server touches: ["data/CLX5_mbo.dbn"] and
    ["data/order_book_output.json"]. *)
Inductive Path : Type := DataFile | OutputFile.

Inductive Event : Type -> Type :=
| PathExists (p : Path) : Event bool
| PathUnlink (p : Path) : Event (PyResult unit)
| OpenReadlines (p : Path) : Event (PyResult (list string))
| HttpRequest (r : Request) : Event (PyResult Response)
| TimeSleep (seconds : Z) : Event unit.

(** A handler: it returns, raises, or performs an event and goes on with
    the event's answer. *)
Inductive Prog (A : Type) : Type :=
| Ret (a : A)
| Raise (e : PyExc)
| Vis {X : Type} (ev : Event X) (k : X -> Prog A).
Arguments Ret {A} a.
Arguments Raise {A} e.
Arguments Vis {A X} ev k.

Fixpoint bind {A B : Type} (m : Prog A) (f : A -> Prog B) : Prog B :=
  match m with
  | Ret a => f a
  | Raise e => Raise e
  | Vis ev k => Vis ev (fun x => bind (k x) f)
  end.

(** [try: m  except ...: h e]; [h e = None] when no clause matches [e]. *)
Fixpoint try_except {A : Type} (m : Prog A) (h : PyExc -> option (Prog A))
  : Prog A :=
  match m with
  | Ret a => Ret a
  | Raise e => match h e with Some handler => handler | None => Raise e end
  | Vis ev k => Vis ev (fun x => try_except (k x) h)
  end.

Declare Scope prog_scope.
Delimit Scope prog_scope with prog.
Notation "x <- m ;; k" := (bind m (fun x => k))
  (at level 61, m at next level, right associativity) : prog_scope.
Notation "m ;; k" := (bind m (fun _ => k))
  (at level 61, right associativity) : prog_scope.
Open Scope prog_scope.

Definition lift_result {A : Type} (r : PyResult A) : Prog A :=
  match r with
  | Value a => Ret a
  | Exc e => Raise e
  end.

Definition path_exists (p : Path) : Prog bool := Vis (PathExists p) Ret.
Definition path_unlink (p : Path) : Prog unit := Vis (PathUnlink p) lift_result.
Definition open_readlines (p : Path) : Prog (list string) :=
  Vis (OpenReadlines p) lift_result.
Definition time_sleep (seconds : Z) : Prog unit := Vis (TimeSleep seconds) Ret.
Definition requests_post (u : string) (t : Z) : Prog Response :=
  Vis (HttpRequest {| method := POST; url := u; timeout := t |}) lift_result.
Definition requests_get (u : string) (t : Z) : Prog Response :=
  Vis (HttpRequest {| method := GET; url := u; timeout := t |}) lift_result.

(** ** The world a handler runs in *)

Record World : Type := {
  data_file : option string;
  output_file : option string
}.

Definition lookup (p : Path) (w : World) : option string :=
  match p with
  | DataFile => data_file w
  | OutputFile => output_file w
  end.

Definition remove (p : Path) (w : World) : World :=
  match p with
  | DataFile => {| data_file := None; output_file := output_file w |}
  | OutputFile => {| data_file := data_file w; output_file := None |}
  end.

Definition is_some {A : Type} (o : option A) : bool :=
  match o with Some _ => true | None => false end.

(** The services behind the HTTP client.  They are other processes: a
    request is answered with a response or with an exception of the
    client, and the service may have written to the shared files by the
    time the call is over. *)
Record Env : Type := {
  respond : Request -> World -> PyResult Response * World
}.

Inductive Action : Type :=
| DidExists (p : Path)
| DidUnlink (p : Path)
| DidRead (p : Path)
| DidRequest (r : Request)
| DidSleep (seconds : Z).

Definition action_of {X : Type} (ev : Event X) : Action :=
  match ev with
  | PathExists p => DidExists p
  | PathUnlink p => DidUnlink p
  | OpenReadlines p => DidRead p
  | HttpRequest r => DidRequest r
  | TimeSleep n => DidSleep n
  end.

Definition handle (env : Env) {X : Type} (ev : Event X) (w : World)
  : X * World :=
  match ev in Event X return X * World with
  | PathExists p => (is_some (lookup p w), w)
  | PathUnlink p =>
      match lookup p w with
      | Some _ => (Value tt, remove p w)
      | None => (Exc (OtherException "FileNotFoundError"), w)
      end
  | OpenReadlines p =>
      match lookup p w with
      | Some content => (Value (PyStr.readlines content), w)
      | None => (Exc (OtherException "FileNotFoundError"), w)
      end
  | HttpRequest r => respond env r w
  | TimeSleep _ => (tt, w)
  end.

Inductive Outcome (A : Type) : Type :=
| Returned (a : A)
| Raised (e : PyExc).
Arguments Returned {A} a.
Arguments Raised {A} e.

(** One handler run alone, from world [w]: what it returns or raises, the
    world it leaves, and what it did, in order. *)
Fixpoint run {A : Type} (env : Env) (p : Prog A) (w : World)
  : Outcome A * World * list Action :=
  match p with
  | Ret a => (Returned a, w, [])
  | Raise e => (Raised e, w, [])
  | Vis ev k =>
      let (x, w') := handle env ev w in
      let '(o, w'', t) := run env (k x) w' in
      (o, w'', action_of ev :: t)
  end.

(** A value FastAPI can render as the JSON body of its answer. *)
Class Serialisable (A : Type) : Type := {
  serialisable : A -> bool
}.

(** What FastAPI answers: 200 for a returned value it can render, 500 for
    one it cannot, the status of a raised [HTTPException], 500 for any
    other exception. *)
Definition http_status {A : Type} {rendering : Serialisable A} (o : Outcome A) : Z :=
  match o with
  | Returned a => if serialisable a then 200 else 500
  | Raised (HTTPException code _) => code
  | Raised _ => 500
  end.

Definition http_detail {A : Type} (o : Outcome A) : option string :=
  match o with
  | Raised (HTTPException _ detail) => Some detail
  | _ => None
  end.

(* ================================================================== *)
(** * The handlers of main.py *)
(* ================================================================== *)

(** Service URLs, from the environment variables of the same names. *)
Record Config : Type := {
  SENDER_SERVICE_URL : string;
  RECEIVER_SERVICE_URL : string
}.

Definition default_config : Config := {|
  SENDER_SERVICE_URL := "http://127.0.0.1:8081";
  RECEIVER_SERVICE_URL := "http://127.0.0.1:8082"
|}.

(** The dictionary [start_streaming] returns. *)
Record StreamingResult : Type := {
  status : string;
  message : string;
  total_records : nat;
  final_order_book : json;
  sender_stats : json;
  receiver_stats : json;
  data : list json
}.

(** The dictionary [get_order_book] returns. *)
Record OrderBookResult : Type := {
  ob_status : string;
  ob_total_records : nat;
  ob_data : list json
}.

(** The ["status"] entries and the file flags of the dictionary
    [get_microservices_status] returns; its ports, descriptions and
    resolved paths are constants of the deployment. *)
Record MicroservicesStatus : Type := {
  python_server : string;
  sender_microservice : string;
  receiver_microservice : string;
  data_file_exists : bool;
  output_file_exists : bool
}.

(** The answers are rendered with [allow_nan=False], which refuses [nan]
    and the infinities: of the values of [json], a result is serialisable
    when none of its JSON values holds one of them. *)
#[export] Instance StreamingResult_serialisable : Serialisable StreamingResult := {
  serialisable := fun result =>
    json_finite (final_order_book result) && json_finite (sender_stats result)
    && json_finite (receiver_stats result) && forallb json_finite (data result)
}.

#[export] Instance OrderBookResult_serialisable : Serialisable OrderBookResult := {
  serialisable := fun result => forallb json_finite (ob_data result)
}.

#[export] Instance MicroservicesStatus_serialisable
  : Serialisable MicroservicesStatus := {
  serialisable := fun _ => true
}.

Definition type_name (v : json) : string :=
  match v with
  | JNone => "NoneType"
  | JBool _ => "bool"
  | JInt _ => "int"
  | JFloat _ => "float"
  | JNonFinite _ => "float"
  | JStr _ => "str"
  | JList _ => "list"
  | JDict _ => "dict"
  end.

(** [v.get('message', 'Unknown')], evaluated for a log line: only a
    dictionary has the method. *)
Definition get_message (v : json) : Prog unit :=
  match v with
  | JDict _ => Ret tt
  | _ => Raise (OtherException
                  ("'" ++ type_name v ++ "' object has no attribute 'get'"))
  end.

Section Handlers.

Context {decoder : JSONDecoder}.
Variable cfg : Config.

(** [response.json()]: [requests] turns the decoder's [JSONDecodeError] into
    its own, a [RequestException]; any other exception of the decoder goes
    through. *)
Definition response_json (r : Response) : Prog json :=
  match json_decode (text r) with
  | Decodes v => Ret v
  | DecodeError msg => Raise (RequestException msg)
  | OtherError msg => Raise (OtherException msg)
  end.

(** The loop both handlers run over the lines they read: strip, skip the
    blank line, append what decodes, skip what raises [JSONDecodeError];
    any other exception of the decoder leaves the loop. *)
Definition parse_lines (lines : list string) : PyResult (list json) :=
  fold_left
    (fun state line =>
       match state with
       | Exc e => Exc e
       | Value order_book_data =>
           let line := PyStr.strip line in
           if PyStr.truthy line then
             match json_decode line with
             | Decodes record => Value (order_book_data ++ [record])%list
             | DecodeError _ => Value order_book_data
             | OtherError msg => Exc (OtherException msg)
             end
           else Value order_book_data
       end)
    lines (Value []).

(** Lines 120-130: the consumer's payload to the record sequence. *)
Definition parse_order_book (response_text : string) : PyResult (list json) :=
  let order_book_text := PyStr.strip response_text in
  if PyStr.truthy order_book_text
  then parse_lines (PyStr.split_nl order_book_text)
  else Value [].

(** Line 133: [order_book_data[-1] if order_book_data else {}]. *)
Definition final_state (order_book_data : list json) : json :=
  match order_book_data with
  | [] => JDict []
  | _ :: _ => last order_book_data JNone
  end.

(** Lines 132-143. *)
Definition aggregate (sender_data receiver_data : json)
           (order_book_data : list json) : StreamingResult := {|
  status := "success";
  message := "Microservices completed successfully";
  total_records := List.length order_book_data;
  final_order_book := final_state order_book_data;
  sender_stats := sender_data;
  receiver_stats := receiver_data;
  data := order_book_data
|}.

Definition sender_url : string := SENDER_SERVICE_URL cfg ++ "/start-streaming".
Definition receiver_url : string := RECEIVER_SERVICE_URL cfg ++ "/start-processing".
Definition stats_url : string := RECEIVER_SERVICE_URL cfg ++ "/stats".
Definition order_book_url : string := RECEIVER_SERVICE_URL cfg ++ "/order-book".
Definition sender_status_url : string := SENDER_SERVICE_URL cfg ++ "/status".
Definition receiver_status_url : string := RECEIVER_SERVICE_URL cfg ++ "/status".

(** Lines 91-103: the statistics, or the receiver's own answer. *)
Definition fetch_stats (receiver_data : json) : Prog json :=
  try_except
    (stats_response <- requests_get stats_url 10 ;;
     if (status_code stats_response =? 200)%Z
     then response_json stats_response
     else Ret receiver_data)
    (fun _ => Some (Ret receiver_data)).

(** Lines 105-146, after the receiver has answered. *)
Definition retrieve_and_aggregate (sender_data receiver_data : json)
  : Prog StreamingResult :=
  order_book_response <-
    try_except (requests_get order_book_url 10)
      (fun e => Some (Raise (HTTPException 500
                               ("Failed to get order book: " ++ str_exc e)))) ;;
  if negb (status_code order_book_response =? 200)%Z then
    Raise (HTTPException 500
             ("Failed to get order book: " ++ text order_book_response))
  else
    order_book_data <- lift_result (parse_order_book (text order_book_response)) ;;
    Ret (aggregate sender_data receiver_data order_book_data).

(** Lines 68-89 and on, after the sender has answered. *)
Definition receive (sender_data : json) : Prog StreamingResult :=
  receiver_response <-
    try_except (requests_post receiver_url 120)
      (fun e => Some (Raise (HTTPException 500
                               ("Receiver microservice failed: " ++ str_exc e)))) ;;
  if negb (status_code receiver_response =? 200)%Z then
    Raise (HTTPException 500
             ("Receiver microservice failed: " ++ text receiver_response))
  else
    receiver_data <- response_json receiver_response ;;
    get_message receiver_data ;;
    time_sleep 3 ;;
    receiver_data <- fetch_stats receiver_data ;;
    retrieve_and_aggregate sender_data receiver_data.

(** Lines 40-146: the body of the [try]. *)
Definition start_streaming_body : Prog StreamingResult :=
  data_exists <- path_exists DataFile ;;
  if negb data_exists then
    Raise (HTTPException 404 "Data file not found")
  else
    output_exists <- path_exists OutputFile ;;
    (if output_exists then path_unlink OutputFile else Ret tt) ;;
    sender_response <- requests_post sender_url 60 ;;
    if negb (status_code sender_response =? 200)%Z then
      Raise (HTTPException 500
               ("Sender microservice failed: " ++ text sender_response))
    else
      sender_data <- response_json sender_response ;;
      get_message sender_data ;;
      time_sleep 2 ;;
      receive sender_data.

(** Lines 148-151: the two [except] clauses of the handler. *)
Definition start_streaming_except (e : PyExc) : option (Prog StreamingResult) :=
  match e with
  | RequestException _ =>
      Some (Raise (HTTPException 500
                     ("Microservice communication failed: " ++ str_exc e)))
  | _ =>
      Some (Raise (HTTPException 500 ("Error: " ++ str_exc e)))
  end.

(** [POST /api/start-streaming] *)
Definition start_streaming : Prog StreamingResult :=
  try_except start_streaming_body start_streaming_except.

(** [GET /api/order-book] *)
Definition get_order_book : Prog OrderBookResult :=
  output_exists <- path_exists OutputFile ;;
  if negb output_exists then
    Raise (HTTPException 404 "No order book data available")
  else
    try_except
      (lines <- open_readlines OutputFile ;;
       order_book_data <- lift_result (parse_lines lines) ;;
       Ret {| ob_status := "success";
              ob_total_records := List.length order_book_data;
              ob_data := order_book_data |})
      (fun e => Some (Raise (HTTPException 500
                               ("Error reading order book: " ++ str_exc e)))).

(** Lines 209-224: one probe; the bare [except:] takes every exception. *)
Definition probe (status_url : string) : Prog string :=
  try_except
    (response <- requests_get status_url 2 ;;
     if (status_code response =? 200)%Z then Ret "ready" else Ret "unknown")
    (fun _ => Some (Ret "not_running")).

(** [GET /api/microservices/status] *)
Definition get_microservices_status : Prog MicroservicesStatus :=
  data_exists <- path_exists DataFile ;;
  output_exists <- path_exists OutputFile ;;
  sender <- probe sender_status_url ;;
  receiver <- probe receiver_status_url ;;
  Ret {| python_server := "ready";
         sender_microservice := sender;
         receiver_microservice := receiver;
         data_file_exists := data_exists;
         output_file_exists := output_exists |}.

End Handlers.

(** ** Serving the requests

    [start_streaming] is an [async def] that never awaits: its requests and
    its sleeps block, so the server's event loop runs one handler at a
    time, each to its end, and a request that arrives meanwhile waits.
    The handler keeps no state of its own between requests: what is
    shared is the world.  A server is the world, the run in progress if
    there is one, the requests that wait, and the answers given so far;
    every request carries whether a run was in progress when it arrived. *)



Section Serving.

Context {decoder : JSONDecoder}.
Variable cfg : Config.



(** The run that stands at the request to the sender, inside the
    handler's [try]. *)
Definition awaiting_sender : Prog StreamingResult :=
  try_except
    (sender_response <- requests_post (sender_url cfg) 60 ;;
     if negb (status_code sender_response =? 200)%Z then
       Raise (HTTPException 500
                ("Sender microservice failed: " ++ text sender_response))
     else
       sender_data <- response_json sender_response ;;
       get_message sender_data ;;
       time_sleep 2 ;;
       receive cfg sender_data)
    start_streaming_except.


End Serving.



(* ================================================================== *)
(** * The specification's functions *)
(* ================================================================== *)

Section Specification.

Context {decoder : JSONDecoder}.

(** What one line of a payload gives: a record when it is not blank and
    decodes, nothing when it is blank or the decoder raises
    [JSONDecodeError], and the decoder's other exception when it raises
    one. *)
Definition decode_line (line : string) : PyResult (option json) :=
  if PyStr.truthy (PyStr.strip line) then
    match json_decode (PyStr.strip line) with
    | Decodes record => Value (Some record)
    | DecodeError _ => Value None
    | OtherError msg => Exc (OtherException msg)
    end
  else Value None.

(** The records of the lines, in the order of the lines, up to the first
    line on which the decoder raises another exception. *)
Fixpoint records_of (lines : list string) : PyResult (list json) :=
  match lines with
  | [] => Value []
  | line :: rest =>
      match decode_line line with
      | Exc e => Exc e
      | Value first =>
          match records_of rest with
          | Exc e => Exc e
          | Value records =>
              Value match first with
                    | Some record => record :: records
                    | None => records
                    end
          end
      end
  end.




End Specification.

(** [sub in s] *)
Fixpoint contains (sub s : string) : bool :=
  String.prefix sub s ||
  match s with
  | EmptyString => false
  | String _ s' => contains sub s'
  end.

(** Modelled from the spec: the write side of the output artifact, which
    main.py does not have.  "Persists the full record sequence to durable
    storage in the same line-delimited encoding": one record per line, each
    line ended by a line feed. *)
Fixpoint persist (dumps : json -> string) (records : list json) : string :=
  match records with
  | [] => EmptyString
  | record :: rest => dumps record ++ String PyStr.LF (persist dumps rest)
  end.

(** A record that survives the trip through one line of the artifact. *)
Definition line_safe {decoder : JSONDecoder} (dumps : json -> string)
           (record : json) : Prop :=
  PyStr.no_newline (dumps record) = true /\
  PyStr.truthy (PyStr.strip (dumps record)) = true /\
  json_loads (PyStr.strip (dumps record)) = Some record.

(** The status a probe reports for an answer of the service. *)
Definition probe_status (r : PyResult Response) : string :=
  match r with
  | Exc _ => "not_running"
  | Value response =>
      if (status_code response =? 200)%Z then "ready" else "unknown"
  end.

Definition requests_of (t : list Action) : list Request :=
  flat_map (fun a => match a with DidRequest r => [r] | _ => [] end) t.

Definition post (u : string) (t : Z) : Request :=
  {| method := POST; url := u; timeout := t |}.
Definition get (u : string) (t : Z) : Request :=
  {| method := GET; url := u; timeout := t |}.

(** ** Services for the examples *)

(** Services that answer by URL from a table, refuse the connection for
    any other URL, and leave the files alone. *)
Definition answer_from (table : list (string * PyResult Response))
           (r : Request) : PyResult Response :=
  match find (fun entry => String.eqb (fst entry) (url r)) table with
  | Some entry => snd entry
  | None => Exc (RequestException "Connection refused")
  end.

Definition quiet_env (table : list (string * PyResult Response)) : Env :=
  {| respond := fun r w => (answer_from table r, w) |}.

Definition ok (body : string) : PyResult Response :=
  Value {| status_code := 200; text := JsonRef.dq body |}.

Definition two_records : string :=
  JsonRef.dq "{'bid':100,'ask':101}" ++ String PyStr.LF (JsonRef.dq "{'bid':100,'ask':102}").

Definition happy_table : list (string * PyResult Response) :=
  [ ("http://127.0.0.1:8081/start-streaming", ok "{'message': 'started'}");
    ("http://127.0.0.1:8082/start-processing", ok "{'message': 'done'}");
    ("http://127.0.0.1:8082/stats", ok "{'processed': 2}");
    ("http://127.0.0.1:8082/order-book",
      Value {| status_code := 200; text := two_records |}) ].

Definition world0 : World :=
  {| data_file := Some "DBN"; output_file := Some "old" |}.






(** A liveness request has failed: the client raised, or the service
    answered with another status than 200. *)
Definition request_failed (r : PyResult Response) : bool :=
  match r with
  | Exc _ => true
  | Value response => negb (status_code response =? 200)%Z
  end.

(** "Any failure of the liveness request is normalized to NotRunning". *)
Definition probe_normalizes_every_failure : Prop :=
  forall (env : Env) (w : World) (status_url : string),
    request_failed (fst (respond env (get status_url 2) w)) = true ->
    fst (fst (run env (probe status_url) w)) = Returned "not_running".

Definition busy_table : list (string * PyResult Response) :=
  [ ("http://127.0.0.1:8081/status", Value {| status_code := 503; text := "busy" |}) ].

(** The detail of the HTTP 500 that answers a failed activation of the
    sender: [r] is what [requests.post] gave. *)
Definition producer_failure_detail (r : PyResult Response) : string :=
  match r with
  | Value response =>
      "Error: 500: Sender microservice failed: " ++ text response
  | Exc (RequestException msg) =>
      "Microservice communication failed: " ++ msg
  | Exc e => "Error: " ++ str_exc e
  end.

(** What the handler does before it contacts any service, when the input
    file is there. *)
Definition prologue (w : World) : list Action :=
  DidExists DataFile :: DidExists OutputFile ::
  (if is_some (output_file w) then [DidUnlink OutputFile] else []).

Definition unavailable : PyResult Response :=
  Value {| status_code := 503; text := "Service Unavailable" |}.

(** The statistics a run carries on after the request to [/stats]: those
    of a decodable answer with status 200, otherwise the receiver's own. *)
Definition known_stats {decoder : JSONDecoder} (receiver_data : json)
           (stats : PyResult Response) : json :=
  match stats with
  | Value response =>
      if (status_code response =? 200)%Z then
        match json_loads (text response) with
        | Some v => v
        | None => receiver_data
        end
      else receiver_data
  | Exc _ => receiver_data
  end.

(** The services of the happy path, with a receiver whose [/stats] fails. *)
Definition no_stats_table : list (string * PyResult Response) :=
  [ ("http://127.0.0.1:8081/start-streaming", ok "{'message': 'started'}");
    ("http://127.0.0.1:8082/start-processing", ok "{'message': 'done'}");
    ("http://127.0.0.1:8082/stats", unavailable);
    ("http://127.0.0.1:8082/order-book",
      Value {| status_code := 200; text := two_records |}) ].

(** The services never create the output file. *)
Definition services_create_no_output (env : Env) : Prop :=
  forall (r : Request) (w : World),
    output_file w = None -> output_file (snd (respond env r w)) = None.

(** "The aggregator performs this persistence": what a successful run
    returned can be read back from the artifact. *)
Definition run_persists_records {decoder : JSONDecoder} (cfg : Config) : Prop :=
  forall (env : Env) (w w' : World) (result : StreamingResult) (t : list Action),
    run env (start_streaming cfg) w = (Returned result, w', t) ->
    fst (fst (run env get_order_book w'))
    = Returned {| ob_status := "success";
                  ob_total_records := total_records result;
                  ob_data := data result |}.

Definition two_dicts : list json :=
  [ JDict [("bid", JInt 100); ("ask", JInt 101)];
    JDict [("bid", JInt 100); ("ask", JInt 102)] ].

(** Services like those of [quiet_env], with a receiver that shares the
    data directory and has written [payload] to the output file by the
    time [/start-processing] answers. *)
Definition writing_env (table : list (string * PyResult Response))
           (payload : string) : Env :=
  {| respond := fun r w =>
       (answer_from table r,
        if String.eqb (url r) "http://127.0.0.1:8082/start-processing"
        then {| data_file := data_file w; output_file := Some payload |}
        else w) |}.

(** ** The stages of a run, by the answers of the services *)

(** What an answer says: the body of a response, the message of an
    exception. *)
Definition answer_text (r : PyResult Response) : string :=
  match r with
  | Value response => text response
  | Exc e => str_exc e
  end.

(** The [AttributeError] of [v.get] on a value that is no dictionary, as
    the handler's last [except] reports it. *)
Definition not_object_detail (v : json) : string :=
  "Error: '" ++ type_name v ++ "' object has no attribute 'get'".

(** The data of an activation answered 200 with a JSON object, or the
    detail of the HTTP 500 that ends the run; [failure] is the detail for
    an exception or another status. *)
Definition activation_stage {decoder : JSONDecoder} (failure : string)
           (r : PyResult Response) : string + json :=
  match r with
  | Exc _ => inl failure
  | Value response =>
      if (status_code response =? 200)%Z then
        match json_decode (text response) with
        | DecodeError msg => inl ("Microservice communication failed: " ++ msg)
        | OtherError msg => inl ("Error: " ++ msg)
        | Decodes (JDict items) => inr (JDict items)
        | Decodes v => inl (not_object_detail v)
        end
      else inl failure
  end.

Definition consumer_failure_detail (r : PyResult Response) : string :=
  "Error: 500: Receiver microservice failed: " ++ answer_text r.

Definition retrieval_failure_detail (r : PyResult Response) : string :=
  "Error: 500: Failed to get order book: " ++ answer_text r.

Definition sender_stage {decoder : JSONDecoder} (r : PyResult Response)
  : string + json :=
  activation_stage (producer_failure_detail r) r.

Definition receiver_stage {decoder : JSONDecoder} (r : PyResult Response)
  : string + json :=
  activation_stage (consumer_failure_detail r) r.

(** Everything a run does after its prologue when no stage fails. *)
Definition script (cfg : Config) : list Action :=
  [ DidRequest (post (sender_url cfg) 60); DidSleep 2;
    DidRequest (post (receiver_url cfg) 120); DidSleep 3;
    DidRequest (get (stats_url cfg) 10);
    DidRequest (get (order_book_url cfg) 10) ].

(** The services of the happy path with a receiver that refuses the
    connection, and with one that answers but has no order book. *)
Definition no_receiver_table : list (string * PyResult Response) :=
  [ ("http://127.0.0.1:8081/start-streaming", ok "{'message': 'started'}") ].

Definition no_order_book_table : list (string * PyResult Response) :=
  [ ("http://127.0.0.1:8081/start-streaming", ok "{'message': 'started'}");
    ("http://127.0.0.1:8082/start-processing", ok "{'message': 'done'}");
    ("http://127.0.0.1:8082/stats", ok "{'processed': 2}");
    ("http://127.0.0.1:8082/order-book", unavailable) ].

(** A sender that answers 200 with a JSON array. *)
Definition array_sender_table : list (string * PyResult Response) :=
  [ ("http://127.0.0.1:8081/start-streaming", ok "['started']") ].

(** The answer is a response with status 200 whose body is a JSON object. *)
Definition answers_object {decoder : JSONDecoder} (r : PyResult Response) : bool :=
  match r with
  | Value response =>
      (status_code response =? 200)%Z &&
      match json_loads (text response) with
      | Some (JDict _) => true
      | _ => false
      end
  | Exc _ => false
  end.

(** The four requests of a run, in the order the handler makes them. *)
Definition pipeline_requests (cfg : Config) : list Request :=
  [ post (sender_url cfg) 60; post (receiver_url cfg) 120;
    get (stats_url cfg) 10; get (order_book_url cfg) 10 ].

(** ** [GET /api/status] *)

(** The dictionary [get_status] returns (lines 27-34). *)
Record StatusResult : Type := {
  st_status : string;
  st_data_file_exists : bool;
  st_output_file_exists : bool
}.

#[export] Instance StatusResult_serialisable : Serialisable StatusResult := {
  serialisable := fun _ => true
}.

Definition get_status : Prog StatusResult :=
  data_exists <- path_exists DataFile ;;
  output_exists <- path_exists OutputFile ;;
  Ret {| st_status := "ready";
         st_data_file_exists := data_exists;
         st_output_file_exists := output_exists |}.

(** Every carriage return of [s] is followed at once by a line feed. *)
Fixpoint crlf_only (s : string) : bool :=
  match s with
  | EmptyString => true
  | String c s' =>
      if PyStr.is_cr c then
        match s' with
        | String c' s'' => PyStr.is_lf c' && crlf_only s''
        | EmptyString => false
        end
      else crlf_only s'
  end.

(** One record with a carriage return between two of its tokens. *)
Definition record_with_cr : string :=
  JsonRef.dq "{'a':" ++ String PyStr.CR "1}".

(** Two records on lines that end in carriage return and line feed. *)
Definition crlf_records : string :=
  JsonRef.dq "{'bid':100,'ask':101}" ++ String PyStr.CR (String PyStr.LF
    (JsonRef.dq "{'bid':100,'ask':102}" ++ String PyStr.CR (String PyStr.LF EmptyString))).

(* ================================================================== *)
(** * The earlier server: history_version/server/main.py *)
(* ================================================================== *)

(** The handlers of the earlier version of the server.  The service
    addresses are written out, the requests to the receiver stand directly
    in the handler's [try], and the statistics are not fetched. *)
Module History.

Section Handlers.

Context {decoder : JSONDecoder}.

(** [GET /api/status] (lines 23-30) *)
Definition get_status : Prog StatusResult :=
  data_exists <- path_exists DataFile ;;
  output_exists <- path_exists OutputFile ;;
  Ret {| st_status := "ready";
         st_data_file_exists := data_exists;
         st_output_file_exists := output_exists |}.

(** Lines 35-102: the body of the [try]. *)
Definition start_streaming_body : Prog StreamingResult :=
  data_exists <- path_exists DataFile ;;
  if negb data_exists then
    Raise (HTTPException 404 "Data file not found")
  else
    output_exists <- path_exists OutputFile ;;
    (if output_exists then path_unlink OutputFile else Ret tt) ;;
    sender_response <- requests_post "http://127.0.0.1:8081/start-streaming" 60 ;;
    if negb (status_code sender_response =? 200)%Z then
      Raise (HTTPException 500
               ("Sender microservice failed: " ++ text sender_response))
    else
      sender_data <- response_json sender_response ;;
      get_message sender_data ;;
      time_sleep 2 ;;
      receiver_response <- requests_post "http://127.0.0.1:8082/start-processing" 120 ;;
      if negb (status_code receiver_response =? 200)%Z then
        Raise (HTTPException 500
                 ("Receiver microservice failed: " ++ text receiver_response))
      else
        receiver_data <- response_json receiver_response ;;
        get_message receiver_data ;;
        time_sleep 3 ;;
        order_book_response <- requests_get "http://127.0.0.1:8082/order-book" 10 ;;
        if negb (status_code order_book_response =? 200)%Z then
          Raise (HTTPException 500
                   ("Failed to get order book: " ++ text order_book_response))
        else
          order_book_data <-
            lift_result (parse_order_book (text order_book_response)) ;;
          Ret (aggregate sender_data receiver_data order_book_data).

(** Lines 104-112: the two [except] clauses. *)
Definition start_streaming_except (e : PyExc) : option (Prog StreamingResult) :=
  match e with
  | RequestException _ =>
      Some (Raise (HTTPException 500
                     ("Microservice communication failed: " ++ str_exc e)))
  | _ =>
      Some (Raise (HTTPException 500 ("Error: " ++ str_exc e)))
  end.

(** [POST /api/start-streaming] *)
Definition start_streaming : Prog StreamingResult :=
  try_except start_streaming_body start_streaming_except.

(** [GET /api/order-book] (lines 114-139) *)
Definition get_order_book : Prog OrderBookResult :=
  output_exists <- path_exists OutputFile ;;
  if negb output_exists then
    Raise (HTTPException 404 "No order book data available")
  else
    try_except
      (lines <- open_readlines OutputFile ;;
       order_book_data <- lift_result (parse_lines lines) ;;
       Ret {| ob_status := "success";
              ob_total_records := List.length order_book_data;
              ob_data := order_book_data |})
      (fun e => Some (Raise (HTTPException 500
                               ("Error reading order book: " ++ str_exc e)))).

(** Lines 170-183: the two probes. *)
Definition probe (status_url : string) : Prog string :=
  try_except
    (response <- requests_get status_url 2 ;;
     if (status_code response =? 200)%Z then Ret "ready" else Ret "unknown")
    (fun _ => Some (Ret "not_running")).

(** [GET /api/microservices/status] (lines 141-185) *)
Definition get_microservices_status : Prog MicroservicesStatus :=
  data_exists <- path_exists DataFile ;;
  output_exists <- path_exists OutputFile ;;
  sender <- probe "http://127.0.0.1:8081/status" ;;
  receiver <- probe "http://127.0.0.1:8082/status" ;;
  Ret {| python_server := "ready";
         sender_microservice := sender;
         receiver_microservice := receiver;
         data_file_exists := data_exists;
         output_file_exists := output_exists |}.

End Handlers.

End History.

(** The detail the handlers' two [except] clauses give an exception. *)
Definition except_detail (e : PyExc) : string :=
  match e with
  | RequestException msg => "Microservice communication failed: " ++ msg
  | _ => "Error: " ++ str_exc e
  end.

(** The detail of a failed request that stands directly in the handler's
    [try]: [label] is the text of the stage. *)
Definition direct_failure_detail (label : string) (r : PyResult Response) : string :=
  match r with
  | Value response => "Error: 500: " ++ label ++ text response
  | Exc e => except_detail e
  end.

(** Services whose answers do not depend on the files and that leave the
    files alone. *)
Definition stateless_env (answers : Request -> PyResult Response) : Env :=
  {| respond := fun r w => (answers r, w) |}.

(** The result with other statistics of the receiver. *)
Definition with_receiver_stats (stats : json) (result : StreamingResult)
  : StreamingResult :=
  {| status := status result;
     message := message result;
     total_records := total_records result;
     final_order_book := final_order_book result;
     sender_stats := sender_stats result;
     receiver_stats := stats;
     data := data result |}.

(** A receiver on which the client times out. *)
Definition receiver_timeout (r : Request) : PyResult Response :=
  if String.eqb (url r) "http://127.0.0.1:8081/start-streaming"
  then ok "{'message': 'started'}"
  else Exc (RequestException "Read timed out").

(** The services never touch the input file. *)
Definition services_keep_input (env : Env) : Prop :=
  forall (r : Request) (w : World),
    data_file (snd (respond env r w)) = data_file w.

(* ================================================================== *)
(** * The file inspector: 123.py *)
(* ================================================================== *)

Module Inspect.
















Section Inspector.

(** [above_half count n] is the floating-point test [count / n > 0.5], for
    [n] other than zero. *)
Variable above_half : nat -> nat -> bool.


End Inspector.


End Inspect.



(** "The 500 carries the reason": whenever the activation of the sender
    fails, the detail of the answer names the sender's failure. *)
Definition producer_failure_names_the_sender {decoder : JSONDecoder}
           (cfg : Config) : Prop :=
  forall (env : Env) (w : World),
    is_some (data_file w) = true ->
    request_failed
      (fst (respond env (post (sender_url cfg) 60) (remove OutputFile w))) = true ->
    exists detail,
      http_detail (fst (fst (run env (start_streaming cfg) w))) = Some detail /\
      contains "Sender microservice failed" detail = true.

(** "After a run that fails the output artifact is absent": whatever the
    services, a run that found the input and raised leaves no output
    file. *)
Definition failed_run_leaves_no_output {decoder : JSONDecoder}
           (cfg : Config) : Prop :=
  forall (env : Env) (w : World),
    is_some (data_file w) = true ->
    (exists e, fst (fst (run env (start_streaming cfg) w)) = Raised e) ->
    output_file (snd (fst (run env (start_streaming cfg) w))) = None.

(* ================================================================== *)
(** * Properties of the string operations *)
(* ================================================================== *)

Section StringFacts.

Import PyStr.

Lemma lf_isspace (c : ascii) : is_lf c = true -> isspace c = true.
Proof.
  unfold is_lf. intros H. apply Ascii.eqb_eq in H. subst c. reflexivity.
Qed.

Lemma split_nl_cons (s : string) : exists l ls, split_nl s = l :: ls.
Proof.
  induction s as [|c s [l [ls IH]]]; simpl.
  - eauto.
  - destruct (is_lf c); [eauto|]. rewrite IH. eauto.
Qed.

Lemma rstrip_cons (c : ascii) (a b : string) :
  rstrip a = rstrip b -> rstrip (String c a) = rstrip (String c b).
Proof. simpl. intros ->. reflexivity. Qed.

Lemma strip_cons_space (c : ascii) (l : string) :
  isspace c = true -> strip (String c l) = strip l.
Proof.
  intros Hc. unfold strip. simpl.
  destruct (rstrip l) eqn:E.
  - rewrite Hc. reflexivity.
  - cbn [lstrip]. rewrite Hc. reflexivity.
Qed.


Lemma rstrip_snoc_space (s : string) (c : ascii) :
  isspace c = true -> rstrip (s ++ String c EmptyString) = rstrip s.
Proof.
  intros Hc. induction s as [|d s IH]; simpl.
  - rewrite Hc. reflexivity.
  - rewrite IH. reflexivity.
Qed.

Lemma strip_snoc_lf (s : string) :
  strip (s ++ String LF EmptyString) = strip s.
Proof. unfold strip. rewrite rstrip_snoc_space; reflexivity. Qed.


End StringFacts.


(* ================================================================== *)
(** * The stream record parser *)
(* ================================================================== *)

Section ParserFacts.

Context {decoder : JSONDecoder}.
Import PyStr.

Lemma parse_loop_raised (lines : list string) (e : PyExc) :
  fold_left
    (fun state line =>
       match state with
       | Exc e => Exc e
       | Value order_book_data =>
           let line := strip line in
           if truthy line then
             match json_decode line with
             | Decodes record => Value (order_book_data ++ [record])%list
             | DecodeError _ => Value order_book_data
             | OtherError msg => Exc (OtherException msg)
             end
           else Value order_book_data
       end)
    lines (Exc e)
  = Exc e.
Proof. induction lines as [|line rest IH]; simpl; [reflexivity|exact IH]. Qed.

Lemma parse_loop_records (lines : list string) (acc : list json) :
  fold_left
    (fun state line =>
       match state with
       | Exc e => Exc e
       | Value order_book_data =>
           let line := strip line in
           if truthy line then
             match json_decode line with
             | Decodes record => Value (order_book_data ++ [record])%list
             | DecodeError _ => Value order_book_data
             | OtherError msg => Exc (OtherException msg)
             end
           else Value order_book_data
       end)
    lines (Value acc)
  = match records_of lines with
    | Value records => Value (acc ++ records)%list
    | Exc e => Exc e
    end.
Proof.
  revert acc. induction lines as [|line rest IH]; intros acc; simpl.
  - rewrite app_nil_r. reflexivity.
  - unfold decode_line.
    destruct (truthy (strip line)).
    + destruct (json_decode (strip line)) as [record|msg|msg].
      * rewrite IH. destruct (records_of rest); [|reflexivity].
        rewrite <- app_assoc. reflexivity.
      * rewrite IH. destruct (records_of rest); reflexivity.
      * apply parse_loop_raised.
    + rewrite IH. destruct (records_of rest); reflexivity.
Qed.

Lemma parse_lines_records (lines : list string) :
  parse_lines lines = records_of lines.
Proof.
  unfold parse_lines. rewrite parse_loop_records.
  destruct (records_of lines); reflexivity.
Qed.

Lemma decode_line_strip_eq (a b : string) :
  strip a = strip b -> decode_line a = decode_line b.
Proof. unfold decode_line. intros ->. reflexivity. Qed.

Lemma decode_line_rstrip_eq (a b : string) :
  rstrip a = rstrip b -> decode_line a = decode_line b.
Proof. intros H. apply decode_line_strip_eq. unfold strip. rewrite H. reflexivity. Qed.

Lemma decode_line_blank (l : string) :
  rstrip l = EmptyString -> decode_line l = Value None.
Proof. intros H. unfold decode_line, strip. rewrite H. reflexivity. Qed.

Lemma records_of_cons_eq (a b : string) (la lb : list string) :
  decode_line a = decode_line b -> records_of la = records_of lb ->
  records_of (a :: la) = records_of (b :: lb).
Proof. simpl. intros -> ->. reflexivity. Qed.

(** A line that gives nothing can be left out. *)
Lemma records_of_skip (l : string) (ls : list string) :
  decode_line l = Value None -> records_of (l :: ls) = records_of ls.
Proof. simpl. intros ->. destruct (records_of ls); reflexivity. Qed.

Lemma records_of_empty_line (ls : list string) :
  records_of (EmptyString :: ls) = records_of ls.
Proof. apply records_of_skip. reflexivity. Qed.

(** Stripping the payload on the left loses no record. *)
Lemma records_of_split_lstrip (s : string) :
  records_of (split_nl (lstrip s)) = records_of (split_nl s).
Proof.
  induction s as [|c s IH]; [reflexivity|].
  cbn [lstrip split_nl].
  destruct (isspace c) eqn:Hc; [|reflexivity].
  rewrite IH. destruct (is_lf c) eqn:Hlf.
  - symmetry. apply records_of_empty_line.
  - destruct (split_nl_cons s) as [l [ls E]]. rewrite E.
    apply records_of_cons_eq; [|reflexivity].
    apply decode_line_strip_eq. symmetry. apply strip_cons_space, Hc.
Qed.

Lemma split_nl_String (c : ascii) (s : string) :
  split_nl (String c s) =
  if is_lf c then EmptyString :: split_nl s
  else match split_nl s with
       | l :: ls => String c l :: ls
       | [] => [String c EmptyString]
       end.
Proof. reflexivity. Qed.

Lemma rstrip_String (c : ascii) (s : string) :
  rstrip (String c s) =
  match rstrip s with
  | EmptyString => if isspace c then EmptyString else String c EmptyString
  | r => String c r
  end.
Proof. reflexivity. Qed.

(** Stripping the payload on the right keeps the first line up to its
    right end, and the records of the other lines. *)
Lemma split_rstrip_head (s : string) :
  exists h t h' t',
    split_nl s = h :: t /\ split_nl (rstrip s) = h' :: t' /\
    rstrip h' = rstrip h /\ records_of t' = records_of t.
Proof.
  induction s as [|c s (h & t & h' & t' & Es & Er & Hh & Ht)].
  - exists EmptyString, [], EmptyString, []. repeat split.
  - rewrite (split_nl_String c s), rstrip_String, Es.
    destruct (rstrip s) as [|d r] eqn:R.
    + simpl in Er. injection Er as <- <-. cbn [rstrip] in Hh.
      destruct (isspace c) eqn:Hc.
      * destruct (is_lf c) eqn:Hlf.
        -- exists EmptyString, (h :: t), EmptyString, []. repeat split.
           rewrite records_of_skip by (apply decode_line_blank; symmetry; exact Hh).
           exact Ht.
        -- exists (String c h), t, EmptyString, []. repeat split; [|exact Ht].
           simpl. rewrite <- Hh. rewrite Hc. reflexivity.
      * assert (Hlf : is_lf c = false).
        { destruct (is_lf c) eqn:Hlf; [|reflexivity].
          apply lf_isspace in Hlf. congruence. }
        rewrite Hlf. exists (String c h), t, (String c EmptyString), [].
        rewrite split_nl_String, Hlf. repeat split; [|exact Ht].
        apply rstrip_cons. exact Hh.
    + rewrite (split_nl_String c (String d r)), Er.
      destruct (is_lf c) eqn:Hlf.
      * exists EmptyString, (h :: t), EmptyString, (h' :: t'). repeat split.
        apply records_of_cons_eq; [|exact Ht].
        apply decode_line_rstrip_eq, Hh.
      * exists (String c h), t, (String c h'), t'. repeat split; [|exact Ht].
        apply rstrip_cons, Hh.
Qed.

Lemma records_of_split_rstrip (s : string) :
  records_of (split_nl (rstrip s)) = records_of (split_nl s).
Proof.
  destruct (split_rstrip_head s) as (h & t & h' & t' & Es & Er & Hh & Ht).
  rewrite Es, Er. apply records_of_cons_eq; [|exact Ht].
  apply decode_line_rstrip_eq, Hh.
Qed.

Lemma records_of_split_strip (s : string) :
  records_of (split_nl (strip s)) = records_of (split_nl s).
Proof.
  unfold strip. rewrite records_of_split_lstrip. apply records_of_split_rstrip.
Qed.

(** The parser of [start_streaming] goes through the payload's lines. *)
Lemma parse_order_book_split (payload : string) :
  parse_order_book payload = records_of (split_nl payload).
Proof.
  unfold parse_order_book. rewrite <- records_of_split_strip.
  destruct (strip payload) eqn:E; simpl truthy; cbv iota.
  - reflexivity.
  - apply parse_lines_records.
Qed.






End ParserFacts.

Section ParserTheorems.

Import PyStr.





End ParserTheorems.

(* ================================================================== *)
(** * Running the handlers *)
(* ================================================================== *)

Section RunFacts.

Context {decoder : JSONDecoder}.

Lemma run_bind {A B : Type} (env : Env) (m : Prog A) (f : A -> Prog B) (w : World) :
  run env (bind m f) w =
  match run env m w with
  | (Returned a, w', t) =>
      let '(o, w'', t') := run env (f a) w' in (o, w'', (t ++ t')%list)
  | (Raised e, w', t) => (Raised e, w', t)
  end.
Proof.
  revert w. induction m as [a|e|X ev k IH]; intros w; simpl.
  - destruct (run env (f a) w) as [[o w''] t']. reflexivity.
  - reflexivity.
  - destruct (handle env ev w) as [x w']. rewrite IH.
    destruct (run env (k x) w') as [[[a|e] w1] t]; [|reflexivity].
    destruct (run env (f a) w1) as [[o w''] t']. reflexivity.
Qed.

Lemma run_try_except {A : Type} (env : Env) (m : Prog A)
      (h : PyExc -> option (Prog A)) (w : World) :
  run env (try_except m h) w =
  match run env m w with
  | (Returned a, w', t) => (Returned a, w', t)
  | (Raised e, w', t) =>
      match h e with
      | Some handler =>
          let '(o, w'', t') := run env handler w' in (o, w'', (t ++ t')%list)
      | None => (Raised e, w', t)
      end
  end.
Proof.
  revert w. induction m as [a|e|X ev k IH]; intros w; simpl.
  - reflexivity.
  - destruct (h e) as [handler|]; [|reflexivity].
    destruct (run env handler w) as [[o w''] t']. reflexivity.
  - destruct (handle env ev w) as [x w']. rewrite IH.
    destruct (run env (k x) w') as [[[a|e] w1] t]; [reflexivity|].
    destruct (h e) as [handler|]; [|reflexivity].
    destruct (run env handler w1) as [[o w''] t']. reflexivity.
Qed.

(** One probe: it always returns, with the status of the answer. *)
Lemma run_probe (env : Env) (w : World) (status_url : string) :
  run env (probe status_url) w =
  (Returned (probe_status (fst (respond env (get status_url 2) w))),
   snd (respond env (get status_url 2) w),
   [DidRequest (get status_url 2)]).
Proof.
  unfold probe, requests_get, get. simpl.
  destruct (respond env _ w) as [[response|e] w']; simpl; [|reflexivity].
  destruct (status_code response =? 200)%Z; reflexivity.
Qed.

End RunFacts.

Section StatusTheorems.

(** C6 (as stated) fails: a service that answers 503 is reported as
    ["unknown"], not as ["not_running"]. *)
Lemma probe_non_success_is_unknown :
  ~ probe_normalizes_every_failure.
Proof.
  intros H.
  specialize (H (quiet_env busy_table) world0 "http://127.0.0.1:8081/status").
  simpl in H. specialize (H eq_refl). discriminate H.
Qed.

(** C6 (amended) — A probe never raises.  A liveness request on which the
    client raises (service unreachable, timeout) gives ["not_running"]; an
    answer with status 200 gives ["ready"]; an answer with any other status
    leaves the initial ["unknown"].  [get_microservices_status] always
    returns (HTTP 200), with the two probes' statuses and the file flags;
    when the client raises on both requests, both services are reported
    ["not_running"]. *)
Theorem microservices_status_never_raises :
  forall (cfg : Config) (env : Env) (w : World),
    let sender := respond env (get (sender_status_url cfg) 2) w in
    let receiver := respond env (get (receiver_status_url cfg) 2) (snd sender) in
    run env (get_microservices_status cfg) w =
      (Returned {| python_server := "ready";
                   sender_microservice := probe_status (fst sender);
                   receiver_microservice := probe_status (fst receiver);
                   data_file_exists := is_some (data_file w);
                   output_file_exists := is_some (output_file w) |},
       snd receiver,
       [DidExists DataFile; DidExists OutputFile;
        DidRequest (get (sender_status_url cfg) 2);
        DidRequest (get (receiver_status_url cfg) 2)]) /\
    http_status (fst (fst (run env (get_microservices_status cfg) w))) = 200%Z /\
    (forall e, probe_status (Exc e) = "not_running") /\
    (forall response,
        probe_status (Value response) =
        if (status_code response =? 200)%Z then "ready" else "unknown").
Proof.
  intros cfg env w sender receiver.
  assert (E : run env (get_microservices_status cfg) w =
      (Returned {| python_server := "ready";
                   sender_microservice := probe_status (fst sender);
                   receiver_microservice := probe_status (fst receiver);
                   data_file_exists := is_some (data_file w);
                   output_file_exists := is_some (output_file w) |},
       snd receiver,
       [DidExists DataFile; DidExists OutputFile;
        DidRequest (get (sender_status_url cfg) 2);
        DidRequest (get (receiver_status_url cfg) 2)])).
  { unfold get_microservices_status, path_exists.
    cbn [bind run handle action_of lookup].
    rewrite run_bind, run_probe. rewrite run_bind, run_probe. reflexivity. }
  split; [exact E|]. split; [rewrite E; reflexivity|]. split; reflexivity.
Qed.

End StatusTheorems.

(* ================================================================== *)
(** * The pipeline run *)
(* ================================================================== *)

Section PipelineTheorems.

Context {decoder : JSONDecoder}.
Variable cfg : Config.

(** With the input file present, a run is its prologue, which removes the
    output file, followed by the request to the sender. *)
Lemma run_start_streaming_present (env : Env) (w : World) :
  is_some (data_file w) = true ->
  run env (start_streaming cfg) w =
  let '(o, w', t) := run env (awaiting_sender cfg) (remove OutputFile w) in
  (o, w', (prologue w ++ t)%list).
Proof.
  destruct w as [[d|] [o|]]; intros Hd; try discriminate Hd;
    unfold start_streaming, start_streaming_body, awaiting_sender, prologue;
    cbn [bind try_except path_exists path_unlink lift_result run handle
         action_of lookup remove is_some negb data_file output_file];
    match goal with
    | |- context [run env ?p ?w'] =>
        destruct (run env p w') as [[o' w''] t']
    end; reflexivity.
Qed.

(** With the input file present, the first request of a run is the one
    to the sender, right after the prologue. *)
Lemma run_start_streaming_trace (env : Env) (w : World) :
  is_some (data_file w) = true ->
  exists rest,
    snd (run env (start_streaming cfg) w)
    = (prologue w ++ DidRequest (post (sender_url cfg) 60) :: rest)%list.
Proof.
  intros Hd. rewrite run_start_streaming_present by exact Hd.
  unfold awaiting_sender, requests_post. fold (post (sender_url cfg) 60).
  cbn [bind try_except run handle action_of].
  destruct (respond env _ _) as [x w1].
  destruct (run env _ w1) as [[o w2] t]. exists t. reflexivity.
Qed.

(** The run that stands at the sender, when the activation fails. *)
Lemma run_awaiting_sender_failed (env : Env) (w : World) :
  request_failed (fst (respond env (post (sender_url cfg) 60) w)) = true ->
  run env (awaiting_sender cfg) w =
  (Raised (HTTPException 500
             (producer_failure_detail (fst (respond env (post (sender_url cfg) 60) w)))),
   snd (respond env (post (sender_url cfg) 60) w),
   [DidRequest (post (sender_url cfg) 60)]).
Proof.
  unfold awaiting_sender, requests_post, post.
  cbn [bind try_except run handle action_of].
  destruct (respond env _ w) as [[response|e] w']; cbn [fst snd request_failed].
  - intros H. simpl. rewrite H. reflexivity.
  - intros _. destruct e; reflexivity.
Qed.


(** The request to [/stats] never ends the run. *)
Lemma run_fetch_stats (env : Env) (w : World) (receiver_data : json) :
  run env (fetch_stats cfg receiver_data) w =
  (Returned (known_stats receiver_data (fst (respond env (get (stats_url cfg) 10) w))),
   snd (respond env (get (stats_url cfg) 10) w),
   [DidRequest (get (stats_url cfg) 10)]).
Proof.
  unfold fetch_stats, requests_get. fold (get (stats_url cfg) 10).
  cbn [bind try_except run handle action_of].
  destruct (respond env _ w) as [[response|e] w']; cbn [fst snd lift_result known_stats].
  - cbn [bind try_except]. destruct (status_code response =? 200)%Z; [|reflexivity].
    unfold response_json, json_decode.
    destruct (json_loads (text response)); [reflexivity|].
    destruct (json_other (text response)); reflexivity.
  - reflexivity.
Qed.



End PipelineTheorems.

(** C4 — The code at the failing input.  With the input file absent the
    body of the handler raises [HTTPException(404, "Data file not found")]
    before any other action, but the handler's own [except Exception]
    catches it: the request is answered with HTTP 500.  No service is
    contacted and the files are as they were. *)
Theorem missing_input_is_answered_500 :
  forall (decoder : JSONDecoder) (cfg : Config) (env : Env) (out : option string),
    let w := {| data_file := None; output_file := out |} in
    run env (start_streaming_body cfg) w =
      (Raised (HTTPException 404 "Data file not found"), w, [DidExists DataFile]) /\
    run env (start_streaming cfg) w =
      (Raised (HTTPException 500 "Error: 404: Data file not found"), w,
       [DidExists DataFile]) /\
    http_status (fst (fst (run env (start_streaming cfg) w))) = 500%Z.
Proof. intros decoder cfg env out w. repeat split. Qed.

(** C8 — With the output file absent, [GET /api/order-book] raises
    [HTTPException(404, "No order book data available")], outside any
    [try]: the request is answered with HTTP 404, and nothing is read or
    changed. *)
Theorem order_book_absent_is_404 :
  forall (decoder : JSONDecoder) (env : Env) (input : option string),
    let w := {| data_file := input; output_file := None |} in
    run env get_order_book w =
      (Raised (HTTPException 404 "No order book data available"), w,
       [DidExists OutputFile]) /\
    http_status (fst (fst (run env get_order_book w))) = 404%Z.
Proof. intros decoder env input w. split; reflexivity. Qed.

(** C5 (as stated) fails: the detail of the 500 does not always name the
    sender's failure.  When the client cannot reach the sender, the
    handler's outer [except] answers ["Microservice communication failed:
    Connection refused"], its text for any exception of [requests]. *)
Lemma client_failure_names_no_stage :
  ~ @producer_failure_names_the_sender reference_decoder default_config.
Proof.
  intros H.
  destruct (H (quiet_env []) world0 eq_refl eq_refl) as [detail [Hd Hc]].
  vm_compute in Hd. injection Hd as <-. vm_compute in Hc. discriminate Hc.
Qed.

(** C5 (amended) — When the activation of the sender fails, by an answer
    with another status than 200 (503, say) or by an exception of the
    client, the run is over: the request is answered with HTTP 500 and the
    only service contacted is the sender (the receiver is never
    activated).  For an answer with another status the detail is
    ["Error: 500: Sender microservice failed: "] with the sender's answer,
    which names the sender's failure; for an exception of the client it is
    what the handler's [except] clauses give any exception,
    ["Microservice communication failed: "] with the message for an
    exception of [requests] and ["Error: "] with the message for any
    other, which names no stage. *)
Theorem producer_failure_aborts_run :
  forall (decoder : JSONDecoder) (cfg : Config) (env : Env) (w : World),
    let activation := respond env (post (sender_url cfg) 60) (remove OutputFile w) in
    is_some (data_file w) = true ->
    request_failed (fst activation) = true ->
    run env (start_streaming cfg) w =
      (Raised (HTTPException 500 (producer_failure_detail (fst activation))),
       snd activation,
       (prologue w ++ [DidRequest (post (sender_url cfg) 60)])%list) /\
    http_status (fst (fst (run env (start_streaming cfg) w))) = 500%Z /\
    http_detail (fst (fst (run env (start_streaming cfg) w)))
      = Some (producer_failure_detail (fst activation)) /\
    requests_of (snd (run env (start_streaming cfg) w)) = [post (sender_url cfg) 60] /\
    ~ In (post (receiver_url cfg) 120) (requests_of (snd (run env (start_streaming cfg) w))) /\
    (forall response,
        producer_failure_detail (Value response) =
        "Error: 500: Sender microservice failed: " ++ text response /\
        contains "Sender microservice failed"
                 (producer_failure_detail (Value response)) = true) /\
    (forall msg,
        producer_failure_detail (Exc (RequestException msg)) =
        "Microservice communication failed: " ++ msg) /\
    (forall e,
        producer_failure_detail (Exc e) = except_detail e).
Proof.
  intros decoder cfg env w activation Hd Hf.
  assert (E : run env (start_streaming cfg) w =
      (Raised (HTTPException 500 (producer_failure_detail (fst activation))),
       snd activation,
       (prologue w ++ [DidRequest (post (sender_url cfg) 60)])%list)).
  { rewrite run_start_streaming_present by exact Hd.
    rewrite run_awaiting_sender_failed by exact Hf. reflexivity. }
  rewrite E. cbn [fst snd http_status http_detail].
  assert (R : requests_of (prologue w ++ [DidRequest (post (sender_url cfg) 60)])
              = [post (sender_url cfg) 60]).
  { unfold prologue. destruct (is_some (output_file w)); reflexivity. }
  rewrite R. repeat split.
  intros [H|[]]. unfold post, sender_url, receiver_url in H. discriminate H.
Qed.

Lemma producer_failure_aborts_run_witness :
  run (quiet_env [("http://127.0.0.1:8081/start-streaming", unavailable)])
      (start_streaming default_config) world0
  = (Raised (HTTPException 500
               "Error: 500: Sender microservice failed: Service Unavailable"),
     {| data_file := Some "DBN"; output_file := None |},
     [DidExists DataFile; DidExists OutputFile; DidUnlink OutputFile;
      DidRequest (post "http://127.0.0.1:8081/start-streaming" 60)]).
Proof.
  apply (producer_failure_aborts_run reference_decoder default_config
           (quiet_env [("http://127.0.0.1:8081/start-streaming", unavailable)])
           world0); reflexivity.
Defined.



(** C3 — The snapshot's final state is the last record in arrival order,
    the empty dictionary when there is no record, and [total_records] is
    the number of records.  For the payload of the two lines
    [{"bid":100,"ask":101}] and [{"bid":100,"ask":102}] the final state is
    [{"bid":100,"ask":102}] and [total_records] is 2, also at the end of a
    whole run; the empty payload gives the empty snapshot. *)
Theorem final_state_is_last_record :
  forall (sender_data receiver_data : json),
    (forall (records : list json) (record : json),
        final_order_book (aggregate sender_data receiver_data (records ++ [record]))
        = record) /\
    (forall (records : list json),
        total_records (aggregate sender_data receiver_data records)
        = List.length records /\
        data (aggregate sender_data receiver_data records) = records) /\
    (forall (decoder : JSONDecoder),
        parse_order_book EmptyString = Value []) /\
    (aggregate sender_data receiver_data []
        = {| status := "success";
             message := "Microservices completed successfully";
             total_records := 0;
             final_order_book := JDict [];
             sender_stats := sender_data;
             receiver_stats := receiver_data;
             data := [] |}) /\
    (exists records,
        @parse_order_book reference_decoder two_records = Value records /\
        let snapshot := aggregate sender_data receiver_data records in
        final_order_book snapshot = JDict [("bid", JInt 100); ("ask", JInt 102)] /\
        total_records snapshot = 2) /\
    (exists (result : StreamingResult) (w : World) (t : list Action),
        run (quiet_env happy_table) (start_streaming default_config) world0
        = (Returned result, w, t) /\
        final_order_book result = JDict [("bid", JInt 100); ("ask", JInt 102)] /\
        total_records result = 2).
Proof.
  intros sender_data receiver_data. repeat split.
  - intros records record. unfold aggregate, final_state. cbn [final_order_book].
    destruct (records ++ [record])%list eqn:E.
    + destruct records; discriminate E.
    + rewrite <- E. apply last_last.
  - eexists. repeat split.
  - eexists _, _, _. repeat split.
Qed.

(* ================================================================== *)
(** * The output artifact *)
(* ================================================================== *)

Section ArtifactFacts.

Context {decoder : JSONDecoder}.
Import PyStr.

(** No event of a handler creates a file: an absent output file stays
    absent through a run, unless a service creates it. *)
Lemma run_keeps_output_absent {A : Type} (env : Env) (p : Prog A) (w : World) :
  services_create_no_output env ->
  output_file w = None ->
  output_file (snd (fst (run env p w))) = None.
Proof.
  intros Henv. revert w. induction p as [a|e|X ev k IH]; intros w Hw; simpl.
  - exact Hw.
  - exact Hw.
  - assert (Hh : output_file (snd (handle env ev w)) = None).
    { destruct ev as [p|p|p|r|n]; simpl.
      - exact Hw.
      - destruct (lookup p w); [|exact Hw]. destruct p; simpl; [exact Hw|reflexivity].
      - destruct (lookup p w); exact Hw.
      - apply Henv, Hw.
      - exact Hw. }
    destruct (handle env ev w) as [x w1]. simpl in Hh.
    specialize (IH x w1 Hh).
    destruct (run env (k x) w1) as [[o w2] t]. exact IH.
Qed.

Lemma universal_newlines_line (l rest : string) :
  no_newline l = true ->
  universal_newlines (l ++ String LF rest) = l ++ String LF (universal_newlines rest).
Proof.
  induction l as [|c l IH]; intros H.
  - reflexivity.
  - simpl in H. apply andb_true_iff in H as [H Hl].
    apply andb_true_iff in H as [_ Hcr]. apply negb_true_iff in Hcr.
    simpl. rewrite Hcr, (IH Hl). reflexivity.
Qed.

Lemma splitlines_keepends_line (l rest : string) :
  no_newline l = true ->
  splitlines_keepends (l ++ String LF rest)
  = (l ++ String LF EmptyString) :: splitlines_keepends rest.
Proof.
  induction l as [|c l IH]; intros H.
  - reflexivity.
  - simpl in H. apply andb_true_iff in H as [H Hl].
    apply andb_true_iff in H as [Hlf _]. apply negb_true_iff in Hlf.
    simpl. rewrite Hlf, (IH Hl). reflexivity.
Qed.

(** Reading the persisted artifact gives back its lines. *)
Lemma readlines_persist (dumps : json -> string) (records : list json) :
  Forall (fun r => no_newline (dumps r) = true) records ->
  readlines (persist dumps records)
  = map (fun r => dumps r ++ String LF EmptyString) records.
Proof.
  unfold readlines. induction 1 as [|r rest Hr Hrest IH]; simpl.
  - reflexivity.
  - rewrite universal_newlines_line by exact Hr.
    rewrite splitlines_keepends_line by exact Hr.
    rewrite IH. reflexivity.
Qed.

Lemma records_of_persisted (dumps : json -> string) (records : list json) :
  Forall (line_safe dumps) records ->
  records_of (map (fun r => dumps r ++ String LF EmptyString) records)
  = Value records.
Proof.
  induction 1 as [|r rest (_ & Ht & Hj) Hrest IH]; simpl; [reflexivity|].
  unfold decode_line, json_decode. rewrite strip_snoc_lf, Ht, Hj, IH. reflexivity.
Qed.

End ArtifactFacts.

(** C10 (as stated) fails: a run that fails does not always leave the
    output file absent.  With a receiver that has written its file by the
    time [/start-processing] answers and an order book that is then
    unavailable, the run fails at the retrieval stage and the file the
    receiver wrote is there: [GET /api/order-book] returns its records. *)
Lemma receiver_output_survives_failed_run :
  ~ @failed_run_leaves_no_output reference_decoder default_config.
Proof.
  intros H.
  specialize (H (writing_env no_order_book_table two_records) world0 eq_refl).
  assert (F : exists e,
             fst (fst (run (writing_env no_order_book_table two_records)
                         (start_streaming default_config) world0)) = Raised e).
  { eexists. reflexivity. }
  specialize (H F). discriminate H.
Qed.

(** C10 (amended) — Whenever the input file exists, [start_streaming]
    removes the output file of an earlier run before it contacts any
    service: its actions begin with the two existence tests, the [unlink]
    when the file was there, and only then the request to the sender.  So
    the results of an earlier run never survive a run: the run goes as
    from a state without output file, and the output file after it is what
    the services have written during it.  When the services write none, it
    is absent, however the run ends, and so it is after a failure at the
    sender that has not written it; [GET /api/order-book] then answers
    404. *)
Theorem start_removes_previous_output_first :
  forall (decoder : JSONDecoder) (cfg : Config) (env : Env) (w : World),
    is_some (data_file w) = true ->
    let after := snd (fst (run env (start_streaming cfg) w)) in
    let activation := respond env (post (sender_url cfg) 60) (remove OutputFile w) in
    (exists rest,
        snd (run env (start_streaming cfg) w)
        = (prologue w ++ DidRequest (post (sender_url cfg) 60) :: rest)%list) /\
    requests_of (prologue w) = [] /\
    (is_some (output_file w) = true -> In (DidUnlink OutputFile) (prologue w)) /\
    fst (run env (start_streaming cfg) w)
      = fst (run env (start_streaming cfg) (remove OutputFile w)) /\
    (services_create_no_output env -> output_file after = None) /\
    (request_failed (fst activation) = true ->
     output_file (snd activation) = None -> output_file after = None) /\
    (output_file after = None ->
     forall env',
       run env' get_order_book after
       = (Raised (HTTPException 404 "No order book data available"), after,
          [DidExists OutputFile])).
Proof.
  intros decoder cfg env w Hd after activation.
  split; [apply run_start_streaming_trace, Hd|].
  split; [unfold prologue; destruct (is_some (output_file w)); reflexivity|].
  split; [unfold prologue; intros ->; simpl; auto|].
  split; [|split; [|split]].
  - assert (Hd' : is_some (data_file (remove OutputFile w)) = true) by exact Hd.
    rewrite (run_start_streaming_present cfg env w Hd).
    rewrite (run_start_streaming_present cfg env _ Hd').
    change (remove OutputFile (remove OutputFile w)) with (remove OutputFile w).
    destruct (run env (awaiting_sender cfg) (remove OutputFile w)) as [[o w'] t].
    reflexivity.
  - intros Henv. unfold after.
    rewrite run_start_streaming_present by exact Hd.
    pose proof (run_keeps_output_absent env (awaiting_sender cfg)
                  (remove OutputFile w) Henv eq_refl) as H.
    destruct (run env (awaiting_sender cfg) (remove OutputFile w)) as [[o w'] t].
    exact H.
  - intros Hf Hnone. unfold after.
    rewrite run_start_streaming_present by exact Hd.
    rewrite run_awaiting_sender_failed by exact Hf. exact Hnone.
  - intros Hafter env'. destruct after as [d o]. simpl in Hafter. subst o.
    reflexivity.
Qed.

Lemma start_removes_previous_output_first_witness :
  let after :=
    snd (fst (run (quiet_env [("http://127.0.0.1:8081/start-streaming", unavailable)])
                  (start_streaming default_config) world0)) in
  output_file world0 = Some "old" /\
  output_file after = None /\
  http_status (fst (fst (run (quiet_env []) get_order_book after))) = 404%Z.
Proof.
  intros after.
  destruct (start_removes_previous_output_first reference_decoder default_config
              (quiet_env [("http://127.0.0.1:8081/start-streaming", unavailable)])
              world0 eq_refl)
    as (_ & _ & _ & _ & Hquiet & Hsender & H404).
  assert (Hnone : output_file after = None) by exact (Hsender eq_refl eq_refl).
  split; [reflexivity|]. split; [exact Hnone|].
  pose proof (H404 Hnone (quiet_env [])) as H. unfold after.
  rewrite H. reflexivity.
Defined.

(** Two runs in a row, with a receiver that writes the output file: the
    first run leaves the records on disk, where [get_order_book] finds
    them; the second run fails at the sender and the records are gone. *)
Example failed_rerun_loses_results :
  let w1 := snd (fst (run (writing_env happy_table two_records)
                          (start_streaming default_config) world0)) in
  let w2 := snd (fst (run (quiet_env [("http://127.0.0.1:8081/start-streaming", unavailable)])
                          (start_streaming default_config) w1)) in
  output_file w1 = Some two_records /\
  fst (fst (run (quiet_env []) get_order_book w1))
    = Returned {| ob_status := "success"; ob_total_records := 2; ob_data := two_dicts |} /\
  output_file w2 = None /\
  http_status (fst (fst (run (quiet_env []) get_order_book w2))) = 404%Z.
Proof. repeat split. Qed.

(** C7 (as stated) fails: [start_streaming] writes nothing.  After a run
    that returned two records, with services that leave the files alone,
    the output file is absent and the records cannot be read back. *)
Lemma successful_run_persists_nothing :
  ~ @run_persists_records reference_decoder default_config.
Proof.
  intros H.
  specialize (H (quiet_env happy_table) world0 _ _ _ eq_refl).
  discriminate H.
Qed.

(** C7 (amended) — Round trip of the read path: when the output file holds
    a record sequence in the line-delimited encoding, one record per line,
    each line decodable and free of line separators, [GET /api/order-book]
    returns exactly that sequence, in content and order, with its length as
    [total_records].  The file is not written by [start_streaming]: with
    services that do not create it, the file is absent after every run that
    found the input, and untouched after a run that did not. *)
Theorem order_book_reads_back_persisted_records :
  forall (decoder : JSONDecoder) (dumps : json -> string) (records : list json)
         (env : Env) (input : option string),
    Forall (line_safe dumps) records ->
    let w := {| data_file := input; output_file := Some (persist dumps records) |} in
    run env get_order_book w
      = (Returned {| ob_status := "success";
                     ob_total_records := List.length records;
                     ob_data := records |},
         w, [DidExists OutputFile; DidRead OutputFile]) /\
    (forall (cfg : Config) (w0 : World),
        services_create_no_output env ->
        output_file (snd (fst (run env (start_streaming cfg) w0)))
        = if is_some (data_file w0) then None else output_file w0).
Proof.
  intros decoder dumps records env input Hsafe w. split.
  - unfold get_order_book, path_exists, open_readlines.
    cbn [bind try_except run handle action_of lookup w output_file is_some negb
         lift_result].
    rewrite readlines_persist.
    + rewrite parse_lines_records, records_of_persisted by exact Hsafe.
      reflexivity.
    + eapply Forall_impl; [|exact Hsafe]. intros r (Hn & _). exact Hn.
  - intros cfg w0 Henv. destruct (is_some (data_file w0)) eqn:Hd.
    + rewrite run_start_streaming_present by exact Hd.
      pose proof (run_keeps_output_absent env (awaiting_sender cfg)
                    (remove OutputFile w0) Henv eq_refl) as H.
      destruct (run env (awaiting_sender cfg) (remove OutputFile w0)) as [[o w'] t].
      exact H.
    + destruct w0 as [[d|] o]; [discriminate Hd|]. reflexivity.
Qed.

Lemma order_book_reads_back_persisted_records_witness :
  fst (fst (run (quiet_env []) get_order_book
              {| data_file := None;
                 output_file := Some (persist JsonRef.dumps two_dicts) |}))
  = Returned {| ob_status := "success"; ob_total_records := 2; ob_data := two_dicts |}
  /\ output_file (snd (fst (run (quiet_env []) (start_streaming default_config) world0)))
     = None.
Proof.
  destruct (order_book_reads_back_persisted_records reference_decoder JsonRef.dumps
              two_dicts (quiet_env []) None) as [H H0].
  - repeat constructor.
  - split.
    + rewrite H. reflexivity.
    + exact (H0 default_config world0 (fun r w E => E)).
Defined.

(* ================================================================== *)
(** * Serving the requests *)
(* ================================================================== *)

Section ServingFacts.

Context {decoder : JSONDecoder}.
Variable cfg : Config.







End ServingFacts.




(* ================================================================== *)
(** * The stages of a run *)
(* ================================================================== *)

Section StageFacts.

Context {decoder : JSONDecoder}.
Variable cfg : Config.

(** A whole run with the input file present, stage by stage. *)
Lemma run_start_streaming_stages (env : Env) (w : World) :
  is_some (data_file w) = true ->
  run env (start_streaming cfg) w =
  let a1 := respond env (post (sender_url cfg) 60) (remove OutputFile w) in
  match sender_stage (fst a1) with
  | inl detail =>
      (Raised (HTTPException 500 detail), snd a1,
       (prologue w ++ firstn 1 (script cfg))%list)
  | inr sender_data =>
      let a2 := respond env (post (receiver_url cfg) 120) (snd a1) in
      match receiver_stage (fst a2) with
      | inl detail =>
          (Raised (HTTPException 500 detail), snd a2,
           (prologue w ++ firstn 3 (script cfg))%list)
      | inr receiver_data =>
          let a3 := respond env (get (stats_url cfg) 10) (snd a2) in
          let a4 := respond env (get (order_book_url cfg) 10) (snd a3) in
          if request_failed (fst a4) then
            (Raised (HTTPException 500 (retrieval_failure_detail (fst a4))),
             snd a4, (prologue w ++ script cfg)%list)
          else
            match parse_order_book (answer_text (fst a4)) with
            | Value records =>
                (Returned (aggregate sender_data
                             (known_stats receiver_data (fst a3)) records),
                 snd a4, (prologue w ++ script cfg)%list)
            | Exc e =>
                (Raised (HTTPException 500 (except_detail e)),
                 snd a4, (prologue w ++ script cfg)%list)
            end
      end
  end.
Proof.
  intros Hd. rewrite run_start_streaming_present by exact Hd.
  unfold awaiting_sender, requests_post. fold (post (sender_url cfg) 60).
  cbn [bind try_except run handle action_of].
  destruct (respond env (post (sender_url cfg) 60) (remove OutputFile w))
    as [[sresp|se] w1]; cbn [fst snd lift_result bind try_except run];
    [|destruct se; reflexivity].
  unfold sender_stage, activation_stage.
  destruct (status_code sresp =? 200)%Z eqn:Es; cbn [negb]; [|reflexivity].
  unfold response_json at 1. unfold json_decode at 1 2.
  destruct (json_loads (text sresp)) as [sv|];
    [|destruct (json_other (text sresp)); reflexivity].
  destruct sv; try reflexivity.
  cbn [bind try_except get_message time_sleep run handle action_of].
  unfold receive at 1, requests_post. fold (post (receiver_url cfg) 120).
  cbn [bind try_except run handle action_of].
  destruct (respond env (post (receiver_url cfg) 120) w1)
    as [[rresp|re] w2]; cbn [fst snd lift_result bind try_except run];
    [|destruct re; reflexivity].
  unfold receiver_stage, activation_stage.
  destruct (status_code rresp =? 200)%Z eqn:Er; cbn [negb]; [|reflexivity].
  unfold response_json at 1. unfold json_decode at 1 2.
  destruct (json_loads (text rresp)) as [rv|];
    [|destruct (json_other (text rresp)); reflexivity].
  destruct rv; try reflexivity.
  cbn [bind try_except get_message time_sleep run handle action_of].
  rewrite run_try_except, run_bind, run_fetch_stats.
  destruct (respond env (get (stats_url cfg) 10) w2) as [stats w3].
  cbn [fst snd].
  unfold retrieve_and_aggregate, requests_get. fold (get (order_book_url cfg) 10).
  cbn [bind try_except run handle action_of].
  destruct (respond env (get (order_book_url cfg) 10) w3)
    as [[oresp|oe] w4]; cbn [fst snd lift_result bind try_except run request_failed];
    [|reflexivity].
  destruct (status_code oresp =? 200)%Z; cbn [negb answer_text]; [|reflexivity].
  destruct (parse_order_book (text oresp)) as [records|e];
    cbn [lift_result bind try_except run]; [reflexivity|].
  destruct e; reflexivity.
Qed.

End StageFacts.

Section StageAnswers.

Context {decoder : JSONDecoder}.

Lemma activation_stage_object (failure : string) (r : PyResult Response)
      (response : Response) (items : list (string * json)) :
  r = Value response ->
  status_code response = 200%Z ->
  json_loads (text response) = Some (JDict items) ->
  activation_stage failure r = inr (JDict items).
Proof.
  intros -> H200 Hj. unfold activation_stage, json_decode.
  rewrite H200, Hj. reflexivity.
Qed.

Lemma activation_stage_failed (failure : string) (r : PyResult Response) :
  request_failed r = true -> activation_stage failure r = inl failure.
Proof.
  destruct r as [response|e]; simpl; [|reflexivity].
  intros H. apply negb_true_iff in H. rewrite H. reflexivity.
Qed.

Lemma activation_stage_answers_object (failure : string) (r : PyResult Response) :
  answers_object r = true ->
  exists items, activation_stage failure r = inr (JDict items).
Proof.
  destruct r as [response|e]; simpl; [|discriminate].
  destruct (status_code response =? 200)%Z; [|discriminate].
  unfold json_decode.
  destruct (json_loads (text response)) as [[]|]; try discriminate.
  intros _. eexists. reflexivity.
Qed.

Lemma activation_stage_no_object (failure : string) (r : PyResult Response) :
  answers_object r = false ->
  exists detail, activation_stage failure r = inl detail.
Proof.
  destruct r as [response|e]; simpl; [|eauto].
  destruct (status_code response =? 200)%Z; [|eauto].
  unfold json_decode.
  destruct (json_loads (text response)) as [[]|]; try discriminate; eauto.
  destruct (json_other (text response)); eauto.
Qed.

Lemma requests_of_app (t1 t2 : list Action) :
  requests_of (t1 ++ t2) = (requests_of t1 ++ requests_of t2)%list.
Proof. unfold requests_of. apply flat_map_app. Qed.

Lemma requests_of_prologue (w : World) : requests_of (prologue w) = [].
Proof. unfold prologue. destruct (is_some (output_file w)); reflexivity. Qed.

(** A [try] whose [except] clauses turn every exception into an
    [HTTPException] with status 500 returns or raises exactly that. *)
Lemma run_try_except_500 {A : Type} (env : Env) (m : Prog A)
      (h : PyExc -> option (Prog A)) (w : World) :
  (forall e, exists detail, h e = Some (Raise (HTTPException 500 detail))) ->
  (exists a, fst (fst (run env (try_except m h) w)) = Returned a) \/
  (exists detail,
      fst (fst (run env (try_except m h) w)) = Raised (HTTPException 500 detail)).
Proof.
  intros Hh. rewrite run_try_except.
  destruct (run env m w) as [[[a|e] w'] t]; simpl.
  - left. eauto.
  - destruct (Hh e) as [detail ->]. simpl. right. eauto.
Qed.

Lemma start_streaming_except_500 (e : PyExc) :
  exists detail,
    start_streaming_except e = Some (Raise (HTTPException 500 detail)).
Proof. destruct e; simpl; eauto. Qed.

Lemma start_streaming_returns_or_500 (cfg : Config) (env : Env) (w : World) :
  (exists result,
      fst (fst (run env (start_streaming cfg) w)) = Returned result) \/
  (exists detail,
      fst (fst (run env (start_streaming cfg) w))
      = Raised (HTTPException 500 detail)).
Proof.
  unfold start_streaming. apply run_try_except_500.
  apply start_streaming_except_500.
Qed.

End StageAnswers.

(** X1 — When the sender has answered 200 with a JSON object and the
    activation of the receiver fails, by an exception of the client or by
    an answer with another status than 200, the request is answered with
    HTTP 500 and the detail ["Error: 500: Receiver microservice failed: "]
    followed by the exception's message or the answer's body.  The handler
    has slept 2 seconds between the two requests, and it asks neither for
    the statistics nor for the order book. *)
Theorem consumer_failure_aborts_run :
  forall (decoder : JSONDecoder) (cfg : Config) (env : Env) (w : World)
         (sender_response : Response) (sender_data : list (string * json)),
    let a1 := respond env (post (sender_url cfg) 60) (remove OutputFile w) in
    let a2 := respond env (post (receiver_url cfg) 120) (snd a1) in
    is_some (data_file w) = true ->
    fst a1 = Value sender_response ->
    status_code sender_response = 200%Z ->
    json_loads (text sender_response) = Some (JDict sender_data) ->
    request_failed (fst a2) = true ->
    run env (start_streaming cfg) w
      = (Raised (HTTPException 500
                   ("Error: 500: Receiver microservice failed: " ++ answer_text (fst a2))),
         snd a2,
         (prologue w ++ [DidRequest (post (sender_url cfg) 60); DidSleep 2;
                         DidRequest (post (receiver_url cfg) 120)])%list) /\
    requests_of (snd (run env (start_streaming cfg) w))
      = [post (sender_url cfg) 60; post (receiver_url cfg) 120].
Proof.
  intros decoder cfg env w sresp sd a1 a2 Hd H1 H200 Hj Hf.
  assert (E : run env (start_streaming cfg) w
      = (Raised (HTTPException 500
                   ("Error: 500: Receiver microservice failed: " ++ answer_text (fst a2))),
         snd a2,
         (prologue w ++ [DidRequest (post (sender_url cfg) 60); DidSleep 2;
                         DidRequest (post (receiver_url cfg) 120)])%list)).
  { rewrite (run_start_streaming_stages cfg env w Hd). cbv zeta.
    fold a1. unfold sender_stage.
    rewrite (activation_stage_object _ _ sresp sd H1 H200 Hj).
    fold a2. unfold receiver_stage.
    rewrite (activation_stage_failed _ _ Hf). reflexivity. }
  split; [exact E|]. rewrite E. cbn [snd].
  rewrite requests_of_app, requests_of_prologue. reflexivity.
Qed.

Lemma consumer_failure_aborts_run_witness :
  fst (fst (run (quiet_env no_receiver_table) (start_streaming default_config) world0))
  = Raised (HTTPException 500
              "Error: 500: Receiver microservice failed: Connection refused").
Proof.
  destruct (consumer_failure_aborts_run reference_decoder default_config
              (quiet_env no_receiver_table) world0
              {| status_code := 200; text := JsonRef.dq "{'message': 'started'}" |}
              [("message", JStr "started")]
              eq_refl eq_refl eq_refl eq_refl eq_refl) as [E _].
  rewrite E. reflexivity.
Defined.

(** X2 — When the sender and the receiver have answered 200 with a JSON
    object and the request for the order book fails, by an exception of
    the client or by an answer with another status than 200, the request
    is answered with HTTP 500 and the detail
    ["Error: 500: Failed to get order book: "] followed by the exception's
    message or the answer's body, after all four requests have been
    made. *)
Theorem retrieval_failure_fails_run :
  forall (decoder : JSONDecoder) (cfg : Config) (env : Env) (w : World)
         (sender_response receiver_response : Response)
         (sender_data receiver_data : list (string * json)),
    let a1 := respond env (post (sender_url cfg) 60) (remove OutputFile w) in
    let a2 := respond env (post (receiver_url cfg) 120) (snd a1) in
    let a3 := respond env (get (stats_url cfg) 10) (snd a2) in
    let a4 := respond env (get (order_book_url cfg) 10) (snd a3) in
    is_some (data_file w) = true ->
    fst a1 = Value sender_response ->
    status_code sender_response = 200%Z ->
    json_loads (text sender_response) = Some (JDict sender_data) ->
    fst a2 = Value receiver_response ->
    status_code receiver_response = 200%Z ->
    json_loads (text receiver_response) = Some (JDict receiver_data) ->
    request_failed (fst a4) = true ->
    run env (start_streaming cfg) w
      = (Raised (HTTPException 500
                   ("Error: 500: Failed to get order book: " ++ answer_text (fst a4))),
         snd a4, (prologue w ++ script cfg)%list) /\
    requests_of (snd (run env (start_streaming cfg) w)) = pipeline_requests cfg.
Proof.
  intros decoder cfg env w sresp rresp sd rd a1 a2 a3 a4
         Hd H1 Hs200 Hsj H2 Hr200 Hrj Hf.
  assert (E : run env (start_streaming cfg) w
      = (Raised (HTTPException 500
                   ("Error: 500: Failed to get order book: " ++ answer_text (fst a4))),
         snd a4, (prologue w ++ script cfg)%list)).
  { rewrite (run_start_streaming_stages cfg env w Hd). cbv zeta.
    fold a1. unfold sender_stage.
    rewrite (activation_stage_object _ _ sresp sd H1 Hs200 Hsj).
    fold a2. unfold receiver_stage.
    rewrite (activation_stage_object _ _ rresp rd H2 Hr200 Hrj).
    fold a3. fold a4. rewrite Hf. reflexivity. }
  split; [exact E|]. rewrite E. cbn [snd].
  rewrite requests_of_app, requests_of_prologue. reflexivity.
Qed.

Lemma retrieval_failure_fails_run_witness :
  fst (fst (run (quiet_env no_order_book_table) (start_streaming default_config) world0))
  = Raised (HTTPException 500
              "Error: 500: Failed to get order book: Service Unavailable").
Proof.
  destruct (retrieval_failure_fails_run reference_decoder default_config
              (quiet_env no_order_book_table) world0
              {| status_code := 200; text := JsonRef.dq "{'message': 'started'}" |}
              {| status_code := 200; text := JsonRef.dq "{'message': 'done'}" |}
              [("message", JStr "started")] [("message", JStr "done")]
              eq_refl eq_refl eq_refl eq_refl eq_refl eq_refl eq_refl eq_refl)
    as [E _].
  rewrite E. reflexivity.
Defined.



(** X4 — The handler of [POST /api/start-streaming] returns a result
    exactly when the input file exists, the sender and the receiver each
    answer 200 with a JSON object, the order book is answered 200 and the
    parse loop goes through its body; the answer to [/stats] plays no part
    in it.  The request is answered with HTTP 200 only when the handler
    returns a result that holds no [NaN] and no infinity; a returned result
    that holds one cannot be rendered and is answered with HTTP 500. *)
Theorem run_returns_iff :
  forall (decoder : JSONDecoder) (cfg : Config) (env : Env) (w : World),
    let a1 := respond env (post (sender_url cfg) 60) (remove OutputFile w) in
    let a2 := respond env (post (receiver_url cfg) 120) (snd a1) in
    let a3 := respond env (get (stats_url cfg) 10) (snd a2) in
    let a4 := respond env (get (order_book_url cfg) 10) (snd a3) in
    let outcome := fst (fst (run env (start_streaming cfg) w)) in
    ((exists result, outcome = Returned result) <->
     is_some (data_file w) && answers_object (fst a1) && answers_object (fst a2)
       && negb (request_failed (fst a4)) = true /\
     exists records, parse_order_book (answer_text (fst a4)) = Value records) /\
    (http_status outcome = 200%Z ->
     exists result, outcome = Returned result /\ serialisable result = true) /\
    (forall result,
        outcome = Returned result -> serialisable result = false ->
        http_status outcome = 500%Z).
Proof.
  intros decoder cfg env w a1 a2 a3 a4 outcome.
  assert (R : (http_status outcome = 200%Z ->
               exists result, outcome = Returned result /\ serialisable result = true) /\
              (forall result,
                  outcome = Returned result -> serialisable result = false ->
                  http_status outcome = 500%Z)).
  { unfold outcome.
    destruct (start_streaming_returns_or_500 cfg env w) as [[r Hr]|[d Hr]];
      rewrite Hr; cbn [http_status].
    - destruct (serialisable r) eqn:S; split.
      + intros _. exists r. split; [reflexivity|exact S].
      + intros r' [= <-] Hs. congruence.
      + discriminate.
      + intros r' _ _. reflexivity.
    - split; [discriminate|]. intros r Hr'. discriminate Hr'. }
  split; [|exact R]. clear R. unfold outcome. clear outcome.
  destruct (is_some (data_file w)) eqn:Hd.
  - rewrite (run_start_streaming_stages cfg env w Hd). cbv zeta.
    fold a1. unfold sender_stage.
    destruct (answers_object (fst a1)) eqn:O1.
    + destruct (activation_stage_answers_object (producer_failure_detail (fst a1)) _ O1)
        as [sd ->].
      fold a2. unfold receiver_stage.
      destruct (answers_object (fst a2)) eqn:O2.
      * destruct (activation_stage_answers_object (consumer_failure_detail (fst a2)) _ O2)
          as [rd ->].
        fold a3. fold a4.
        destruct (request_failed (fst a4)); cbn [fst negb andb].
        -- split; [intros [r Hr]; discriminate Hr|intros [H _]; discriminate H].
        -- destruct (parse_order_book (answer_text (fst a4))) as [records|e];
             cbn [fst].
           ++ split; [intros _; split; [reflexivity|eauto]|eauto].
           ++ split; [intros [r Hr]; discriminate Hr|].
              intros [_ [records Hr]]. discriminate Hr.
      * destruct (activation_stage_no_object (consumer_failure_detail (fst a2)) _ O2)
          as [d ->].
        cbn [fst andb]. split; [intros [r Hr]; discriminate Hr|].
        intros [H _]. discriminate H.
    + destruct (activation_stage_no_object (producer_failure_detail (fst a1)) _ O1)
        as [d ->].
      cbn [fst andb]. split; [intros [r Hr]; discriminate Hr|].
      intros [H _]. discriminate H.
  - destruct w as [[d|] o]; [discriminate Hd|]. simpl.
    split; [intros [r Hr]; discriminate Hr|intros [H _]; discriminate H].
Qed.

Lemma run_returns_iff_witness :
  exists result,
    fst (fst (run (quiet_env no_stats_table)
                (start_streaming default_config) world0)) = Returned result.
Proof.
  apply (proj2 (proj1 (run_returns_iff reference_decoder default_config
                         (quiet_env no_stats_table) world0))).
  split; [reflexivity|]. eexists. reflexivity.
Defined.

(** X5 — Whatever the files and the services, the handler of
    [POST /api/start-streaming] either returns its result or raises an
    [HTTPException] with status 500: no other exception leaves the
    handler, and the request is answered with HTTP 200 or with HTTP 500,
    never with another status. *)
Theorem start_streaming_answers_200_or_500 :
  forall (decoder : JSONDecoder) (cfg : Config) (env : Env) (w : World),
    ((exists result,
         fst (fst (run env (start_streaming cfg) w)) = Returned result) \/
     (exists detail,
         fst (fst (run env (start_streaming cfg) w))
         = Raised (HTTPException 500 detail))) /\
    (http_status (fst (fst (run env (start_streaming cfg) w))) = 200%Z \/
     http_status (fst (fst (run env (start_streaming cfg) w))) = 500%Z).
Proof.
  intros decoder cfg env w.
  pose proof (start_streaming_returns_or_500 cfg env w) as H.
  split; [exact H|].
  destruct H as [[result ->]|[detail ->]]; cbn [http_status].
  - destruct (serialisable result); [left|right]; reflexivity.
  - right. reflexivity.
Qed.

(** X6 — A run asks each service at most once and in a fixed order: the
    requests it makes are none (no input file), the one to the sender,
    those to the sender and the receiver, or all four, the statistics and
    the order book always together.  Nothing is retried, and a run that
    is answered with HTTP 200 has made all four. *)
Theorem requests_follow_the_pipeline :
  forall (decoder : JSONDecoder) (cfg : Config) (env : Env) (w : World),
    let requests := requests_of (snd (run env (start_streaming cfg) w)) in
    (requests = [] \/
     requests = firstn 1 (pipeline_requests cfg) \/
     requests = firstn 2 (pipeline_requests cfg) \/
     requests = pipeline_requests cfg) /\
    (is_some (data_file w) = false <-> requests = []) /\
    (http_status (fst (fst (run env (start_streaming cfg) w))) = 200%Z ->
     requests = pipeline_requests cfg).
Proof.
  intros decoder cfg env w requests. unfold requests. clear requests.
  destruct (is_some (data_file w)) eqn:Hd.
  - rewrite (run_start_streaming_stages cfg env w Hd). cbv zeta.
    destruct (sender_stage _) as [d1|sd].
    + cbn [fst snd]. rewrite requests_of_app, requests_of_prologue.
      repeat split; try (simpl; auto; fail); try discriminate.
    + destruct (receiver_stage _) as [d2|rd].
      * cbn [fst snd]. rewrite requests_of_app, requests_of_prologue.
        repeat split; try (simpl; auto; fail); try discriminate.
      * destruct (request_failed _); [|destruct (parse_order_book _)];
          cbn [fst snd];
          rewrite requests_of_app, requests_of_prologue;
          repeat split; try (simpl; auto; fail); try discriminate.
  - destruct w as [[d|] o]; [discriminate Hd|]. simpl.
    repeat split; auto; discriminate.
Qed.

Lemma requests_follow_the_pipeline_witness :
  requests_of (snd (run (quiet_env happy_table) (start_streaming default_config) world0))
  = pipeline_requests default_config.
Proof.
  apply (requests_follow_the_pipeline reference_decoder default_config
           (quiet_env happy_table) world0).
  reflexivity.
Defined.

(** X7 — An activation of the sender answered 200 without a JSON object
    ends the run before the receiver is contacted, with HTTP 500: a body
    the decoder refuses with a [JSONDecodeError] gives the detail
    ["Microservice communication failed: "] with the decoder's message; a
    body on which the decoder raises another exception gives ["Error: "]
    with that exception's message; a body that decodes to a list, a
    string, a number, a boolean or [null] gives
    ["Error: '<type>' object has no attribute 'get'"], from the [.get] of
    the handler's log line. *)
Theorem sender_without_object_aborts_run :
  forall (decoder : JSONDecoder) (cfg : Config) (env : Env) (w : World)
         (sender_response : Response),
    let a1 := respond env (post (sender_url cfg) 60) (remove OutputFile w) in
    is_some (data_file w) = true ->
    fst a1 = Value sender_response ->
    status_code sender_response = 200%Z ->
    answers_object (fst a1) = false ->
    run env (start_streaming cfg) w
      = (Raised (HTTPException 500
                   match json_decode (text sender_response) with
                   | DecodeError msg => "Microservice communication failed: " ++ msg
                   | OtherError msg => "Error: " ++ msg
                   | Decodes v => "Error: '" ++ type_name v
                                    ++ "' object has no attribute 'get'"
                   end),
         snd a1,
         (prologue w ++ [DidRequest (post (sender_url cfg) 60)])%list) /\
    requests_of (snd (run env (start_streaming cfg) w)) = [post (sender_url cfg) 60].
Proof.
  intros decoder cfg env w sresp a1 Hd H1 H200 Hno.
  assert (E : run env (start_streaming cfg) w
      = (Raised (HTTPException 500
                   match json_decode (text sresp) with
                   | DecodeError msg => "Microservice communication failed: " ++ msg
                   | OtherError msg => "Error: " ++ msg
                   | Decodes v => "Error: '" ++ type_name v
                                    ++ "' object has no attribute 'get'"
                   end),
         snd a1,
         (prologue w ++ [DidRequest (post (sender_url cfg) 60)])%list)).
  { rewrite (run_start_streaming_stages cfg env w Hd). cbv zeta. fold a1.
    unfold sender_stage, activation_stage. rewrite H1 in Hno |- *.
    simpl in Hno. rewrite H200 in Hno |- *. simpl in Hno.
    unfold json_decode.
    destruct (json_loads (text sresp)) as [[]|]; try discriminate Hno;
      try reflexivity.
    destruct (json_other (text sresp)); reflexivity. }
  split; [exact E|]. rewrite E. cbn [snd].
  rewrite requests_of_app, requests_of_prologue. reflexivity.
Qed.

Lemma sender_without_object_aborts_run_witness :
  fst (fst (run (quiet_env array_sender_table) (start_streaming default_config) world0))
  = Raised (HTTPException 500 "Error: 'list' object has no attribute 'get'").
Proof.
  destruct (sender_without_object_aborts_run reference_decoder default_config
              (quiet_env array_sender_table) world0
              {| status_code := 200; text := JsonRef.dq "['started']" |}
              eq_refl eq_refl eq_refl eq_refl) as [E _].
  rewrite E. reflexivity.
Defined.

(** X8 — What an earlier run left in the output file has no influence on a
    run: from two worlds with the same input file, the handler returns or
    raises the same, leaves the same files, and makes the same requests,
    whatever the output files were and whatever the services do. *)
Theorem previous_output_does_not_matter :
  forall (decoder : JSONDecoder) (cfg : Config) (env : Env)
         (input : string) (output1 output2 : option string),
    let w1 := {| data_file := Some input; output_file := output1 |} in
    let w2 := {| data_file := Some input; output_file := output2 |} in
    fst (run env (start_streaming cfg) w1) = fst (run env (start_streaming cfg) w2) /\
    requests_of (snd (run env (start_streaming cfg) w1))
      = requests_of (snd (run env (start_streaming cfg) w2)).
Proof.
  intros decoder cfg env input output1 output2 w1 w2.
  rewrite (run_start_streaming_present cfg env w1 eq_refl).
  rewrite (run_start_streaming_present cfg env w2 eq_refl).
  change (remove OutputFile w2) with (remove OutputFile w1).
  destruct (run env (awaiting_sender cfg) (remove OutputFile w1)) as [[o w'] t].
  cbn [fst snd]. split; [reflexivity|].
  rewrite !requests_of_app, !requests_of_prologue. reflexivity.
Qed.

(* ================================================================== *)
(** * The read path and the parser *)
(* ================================================================== *)

Section ReadPathFacts.

Context {decoder : JSONDecoder}.
Import PyStr.

Lemma lf_not_cr (c : ascii) : is_lf c = true -> is_cr c = false.
Proof.
  unfold is_lf. intros H. apply Ascii.eqb_eq in H. subst c. reflexivity.
Qed.

(** Lines with their ends kept carry the same records as lines split at
    the line feeds. *)
Lemma keepends_split_heads (t : string) :
  (t = EmptyString /\ splitlines_keepends t = []) \/
  (exists k ktl h tl,
      splitlines_keepends t = k :: ktl /\ split_nl t = h :: tl /\
      rstrip k = rstrip h /\ records_of ktl = records_of tl).
Proof.
  induction t as [|c t IH].
  - left. split; reflexivity.
  - right. rewrite split_nl_String. cbn [splitlines_keepends].
    destruct (is_lf c) eqn:Hlf.
    + exists (String c EmptyString), (splitlines_keepends t),
        EmptyString, (split_nl t).
      repeat split.
      * simpl. rewrite (lf_isspace c Hlf). reflexivity.
      * destruct IH as [[-> E]|(k & ktl & h & tl & Ek & Es & Hh & Ht)].
        -- reflexivity.
        -- rewrite Ek, Es. apply records_of_cons_eq; [|exact Ht].
           apply decode_line_rstrip_eq, Hh.
    + destruct IH as [[-> E]|(k & ktl & h & tl & Ek & Es & Hh & Ht)].
      * exists (String c EmptyString), [], (String c EmptyString), [].
        repeat split.
      * rewrite Ek, Es. exists (String c k), ktl, (String c h), tl.
        repeat split; [|exact Ht]. apply rstrip_cons, Hh.
Qed.

Lemma records_of_keepends (t : string) :
  records_of (splitlines_keepends t) = records_of (split_nl t).
Proof.
  destruct (keepends_split_heads t)
    as [[-> E]|(k & ktl & h & tl & Ek & Es & Hh & Ht)].
  - reflexivity.
  - rewrite Ek, Es. apply records_of_cons_eq; [|exact Ht].
    apply decode_line_rstrip_eq, Hh.
Qed.

(** Translating the line ends changes no record when every carriage
    return comes with its line feed. *)
Lemma universal_newlines_heads (s : string) :
  crlf_only s = true ->
  exists h' t' h t,
    split_nl (universal_newlines s) = h' :: t' /\ split_nl s = h :: t /\
    rstrip h' = rstrip h /\ records_of t' = records_of t.
Proof.
  induction s as [|c s IH].
  - intros _. exists EmptyString, [], EmptyString, []. repeat split.
  - cbn [crlf_only universal_newlines]. destruct (is_cr c) eqn:Hcr.
    + destruct s as [|c' s'']; [discriminate|].
      intros H. apply andb_true_iff in H as [Hlf' Hs''].
      rewrite Hlf'.
      assert (Hs' : crlf_only (String c' s'') = true).
      { cbn [crlf_only]. rewrite (lf_not_cr c' Hlf'). exact Hs''. }
      destruct (IH Hs') as (h' & t' & h & t & Eu & Es & Hh & Ht).
      cbn [universal_newlines] in Eu. rewrite (lf_not_cr c' Hlf') in Eu.
      rewrite split_nl_String, Hlf' in Eu, Es.
      injection Eu as <- <-. injection Es as <- <-.
      assert (Hc : is_lf c = false).
      { destruct (is_lf c) eqn:E; [|reflexivity].
        apply lf_not_cr in E. congruence. }
      exists EmptyString, (split_nl (universal_newlines s'')),
        (String c EmptyString), (split_nl s'').
      repeat split.
      * rewrite (split_nl_String c), Hc, (split_nl_String c'), Hlf'. reflexivity.
      * simpl. unfold is_cr in Hcr. apply Ascii.eqb_eq in Hcr. subst c. reflexivity.
      * exact Ht.
    + intros Hs. destruct (IH Hs) as (h' & t' & h & t & Eu & Es & Hh & Ht).
      rewrite !split_nl_String, Eu, Es. destruct (is_lf c).
      * exists EmptyString, (h' :: t'), EmptyString, (h :: t). repeat split.
        apply records_of_cons_eq; [|exact Ht]. apply decode_line_rstrip_eq, Hh.
      * exists (String c h'), t', (String c h), t. repeat split; [|exact Ht].
        apply rstrip_cons, Hh.
Qed.

Lemma records_of_readlines (payload : string) :
  crlf_only payload = true ->
  records_of (readlines payload) = parse_order_book payload.
Proof.
  intros H. unfold readlines.
  rewrite records_of_keepends, parse_order_book_split.
  destruct (universal_newlines_heads payload H)
    as (h' & t' & h & t & Eu & Es & Hh & Ht).
  rewrite Eu, Es. apply records_of_cons_eq; [|exact Ht].
  apply decode_line_rstrip_eq, Hh.
Qed.

(** [get_order_book] with the output file present. *)
Lemma run_get_order_book_present (env : Env) (input : option string)
      (content : string) :
  let w := {| data_file := input; output_file := Some content |} in
  run env get_order_book w
  = (match records_of (readlines content) with
     | Value records =>
         Returned {| ob_status := "success";
                     ob_total_records := List.length records;
                     ob_data := records |}
     | Exc e =>
         Raised (HTTPException 500 ("Error reading order book: " ++ str_exc e))
     end,
     w, [DidExists OutputFile; DidRead OutputFile]).
Proof.
  intros w. unfold get_order_book, path_exists, open_readlines.
  cbn [bind try_except run handle action_of lookup w output_file is_some negb
       lift_result].
  rewrite parse_lines_records.
  destruct (records_of (readlines content)); reflexivity.
Qed.

End ReadPathFacts.

(** X9 — The two reading paths agree.  When the output file holds a
    payload in which every carriage return is followed by a line feed (in
    particular one with none), [GET /api/order-book] does what the parse
    loop of [start_streaming] does on that payload: when the loop goes
    through, the handler returns exactly the records the loop extracts, in
    the same order, with their number as ["total_records"]; when a line
    makes the decoder raise an exception that is no [JSONDecodeError], the
    handler raises an [HTTPException] with status 500 and the detail
    ["Error reading order book: "] followed by that exception's message.
    Either way it contacts no service and leaves the files as they
    are. *)
Theorem order_book_agrees_with_parser :
  forall (decoder : JSONDecoder) (env : Env) (input : option string)
         (payload : string),
    crlf_only payload = true ->
    let w := {| data_file := input; output_file := Some payload |} in
    run env get_order_book w
    = (match parse_order_book payload with
       | Value records =>
           Returned {| ob_status := "success";
                       ob_total_records := List.length records;
                       ob_data := records |}
       | Exc e =>
           Raised (HTTPException 500 ("Error reading order book: " ++ str_exc e))
       end,
       w, [DidExists OutputFile; DidRead OutputFile]).
Proof.
  intros decoder env input payload H w. unfold w.
  rewrite run_get_order_book_present, (records_of_readlines payload H).
  reflexivity.
Qed.

Lemma order_book_agrees_with_parser_witness :
  fst (fst (run (quiet_env []) get_order_book
              {| data_file := None; output_file := Some crlf_records |}))
  = Returned {| ob_status := "success"; ob_total_records := 2; ob_data := two_dicts |}.
Proof.
  rewrite (order_book_agrees_with_parser reference_decoder (quiet_env []) None
             crlf_records eq_refl).
  reflexivity.
Defined.

(** A carriage return alone inside a record is where the two paths part:
    the parser keeps the line whole, the text-mode read breaks it. *)
Example lone_carriage_return_splits_record :
  parse_order_book record_with_cr = Value [JDict [("a", JInt 1)]] /\
  fst (fst (run (quiet_env []) get_order_book
              {| data_file := None; output_file := Some record_with_cr |}))
  = Returned {| ob_status := "success"; ob_total_records := 0; ob_data := [] |}.
Proof. split; reflexivity. Qed.

Section StatusFacts.

Context {decoder : JSONDecoder}.

Lemma run_get_status (env : Env) (w : World) :
  run env get_status w
  = (Returned {| st_status := "ready";
                 st_data_file_exists := is_some (data_file w);
                 st_output_file_exists := is_some (output_file w) |},
     w, [DidExists DataFile; DidExists OutputFile]).
Proof. reflexivity. Qed.

Lemma run_get_microservices_status_flags (cfg : Config) (env : Env) (w : World) :
  exists st w' t,
    run env (get_microservices_status cfg) w = (Returned st, w', t) /\
    data_file_exists st = is_some (data_file w) /\
    output_file_exists st = is_some (output_file w).
Proof.
  unfold get_microservices_status, path_exists.
  cbn [bind run handle action_of lookup].
  rewrite run_bind, run_probe. rewrite run_bind, run_probe.
  eexists _, _, _. repeat split.
Qed.

Lemma http_status_get_order_book (env : Env) (w : World) :
  if is_some (output_file w)
  then http_status (fst (fst (run env get_order_book w))) = 200%Z \/
       http_status (fst (fst (run env get_order_book w))) = 500%Z
  else http_status (fst (fst (run env get_order_book w))) = 404%Z.
Proof.
  destruct w as [d [content|]]; cbn [output_file is_some].
  - rewrite run_get_order_book_present. cbn [fst].
    destruct (records_of (PyStr.readlines content)) as [records|e];
      cbn [http_status].
    + destruct (serialisable _); [left|right]; reflexivity.
    + right. reflexivity.
  - reflexivity.
Qed.

End StatusFacts.

(** X10 — [GET /api/status] always returns ["ready"] with the two file
    flags, contacts no service and changes nothing, and its flags tell
    what the other endpoints will do in the same state: [GET
    /api/order-book] is answered 404 exactly when ["output_file_exists"]
    is false, and 200 or 500 (the file is read, and a line on which the
    decoder raises or a record that cannot be rendered gives the 500) when
    it is true; [POST /api/start-streaming] contacts no service exactly
    when ["data_file_exists"] is false; and [GET
    /api/microservices/status] reports the same two flags. *)
Theorem status_flags_predict_endpoints :
  forall (decoder : JSONDecoder) (cfg : Config) (env : Env) (w : World),
    let st := {| st_status := "ready";
                 st_data_file_exists := is_some (data_file w);
                 st_output_file_exists := is_some (output_file w) |} in
    run env get_status w
      = (Returned st, w, [DidExists DataFile; DidExists OutputFile]) /\
    (http_status (fst (fst (run env get_order_book w))) = 404%Z <->
     st_output_file_exists st = false) /\
    (st_output_file_exists st = true ->
     http_status (fst (fst (run env get_order_book w))) = 200%Z \/
     http_status (fst (fst (run env get_order_book w))) = 500%Z) /\
    (st_data_file_exists st = false <->
     requests_of (snd (run env (start_streaming cfg) w)) = []) /\
    (exists ms w' t,
        run env (get_microservices_status cfg) w = (Returned ms, w', t) /\
        data_file_exists ms = st_data_file_exists st /\
        output_file_exists ms = st_output_file_exists st).
Proof.
  intros decoder cfg env w st. split; [reflexivity|].
  pose proof (http_status_get_order_book env w) as H.
  cbn [st st_output_file_exists].
  split; [|split; [|split]].
  - destruct (is_some (output_file w)).
    + split; [|discriminate]. destruct H as [H|H]; rewrite H; discriminate.
    + split; [reflexivity|intros _; exact H].
  - destruct (is_some (output_file w)); [intros _; exact H|discriminate].
  - cbn [st st_data_file_exists]. destruct (is_some (data_file w)) eqn:Hd.
    + destruct (run_start_streaming_trace cfg env w Hd) as [rest ->].
      rewrite requests_of_app, requests_of_prologue. simpl.
      split; discriminate.
    + destruct w as [[d|] o]; [discriminate Hd|]. split; reflexivity.
  - apply run_get_microservices_status_flags.
Qed.

Lemma status_flags_predict_endpoints_witness :
  requests_of (snd (run (quiet_env happy_table) (start_streaming default_config)
                      {| data_file := None; output_file := Some "old" |})) = [].
Proof.
  apply (proj1 (proj2 (proj2 (proj2
           (status_flags_predict_endpoints reference_decoder default_config
              (quiet_env happy_table)
              {| data_file := None; output_file := Some "old" |}))))).
  reflexivity.
Defined.

(* ================================================================== *)
(** * The earlier server *)
(* ================================================================== *)

Section HistoryFacts.

Context {decoder : JSONDecoder}.

(** A whole run of the earlier handler with the input file present. *)
Lemma run_history_start_streaming_stages (env : Env) (w : World) :
  is_some (data_file w) = true ->
  run env History.start_streaming w =
  let s := post "http://127.0.0.1:8081/start-streaming" 60 in
  let r := post "http://127.0.0.1:8082/start-processing" 120 in
  let o := get "http://127.0.0.1:8082/order-book" 10 in
  let a1 := respond env s (remove OutputFile w) in
  match activation_stage
          (direct_failure_detail "Sender microservice failed: " (fst a1)) (fst a1) with
  | inl detail =>
      (Raised (HTTPException 500 detail), snd a1, (prologue w ++ [DidRequest s])%list)
  | inr sender_data =>
      let a2 := respond env r (snd a1) in
      match activation_stage
              (direct_failure_detail "Receiver microservice failed: " (fst a2))
              (fst a2) with
      | inl detail =>
          (Raised (HTTPException 500 detail), snd a2,
           (prologue w ++ [DidRequest s; DidSleep 2; DidRequest r])%list)
      | inr receiver_data =>
          let a4 := respond env o (snd a2) in
          if request_failed (fst a4) then
            (Raised (HTTPException 500
                       (direct_failure_detail "Failed to get order book: " (fst a4))),
             snd a4,
             (prologue w ++ [DidRequest s; DidSleep 2; DidRequest r; DidSleep 3;
                             DidRequest o])%list)
          else
            match parse_order_book (answer_text (fst a4)) with
            | Value records =>
                (Returned (aggregate sender_data receiver_data records),
                 snd a4,
                 (prologue w ++ [DidRequest s; DidSleep 2; DidRequest r; DidSleep 3;
                                 DidRequest o])%list)
            | Exc e =>
                (Raised (HTTPException 500 (except_detail e)),
                 snd a4,
                 (prologue w ++ [DidRequest s; DidSleep 2; DidRequest r; DidSleep 3;
                                 DidRequest o])%list)
            end
      end
  end.
Proof.
  intros Hd. cbv zeta.
  unfold History.start_streaming, History.start_streaming_body, prologue,
    requests_post, requests_get, post, get.
  destruct w as [[d|] [out|]]; try discriminate Hd;
    cbn [bind try_except path_exists path_unlink lift_result run handle
         action_of lookup remove is_some negb data_file output_file app].
  all: destruct (respond env _ _) as [[sresp|se] w1];
    cbn [fst snd lift_result bind try_except run activation_stage
         direct_failure_detail];
    [|destruct se; reflexivity].
  all: destruct (status_code sresp =? 200)%Z; cbn [negb bind try_except run];
    [|reflexivity].
  all: unfold response_json at 1; unfold json_decode at 1 2;
    destruct (json_loads (text sresp)) as [sv|];
    [|destruct (json_other (text sresp)); reflexivity];
    destruct sv; try reflexivity;
    cbn [bind try_except get_message time_sleep run handle action_of].
  all: destruct (respond env _ w1) as [[rresp|re] w2];
    cbn [fst snd lift_result bind try_except run activation_stage
         direct_failure_detail];
    [|destruct re; reflexivity].
  all: destruct (status_code rresp =? 200)%Z; cbn [negb bind try_except run];
    [|reflexivity].
  all: unfold response_json at 1; unfold json_decode at 1 2;
    destruct (json_loads (text rresp)) as [rv|];
    [|destruct (json_other (text rresp)); reflexivity];
    destruct rv; try reflexivity;
    cbn [bind try_except get_message time_sleep run handle action_of].
  all: destruct (respond env _ w2) as [[oresp|oe] w4];
    cbn [fst snd lift_result bind try_except run request_failed];
    [|destruct oe; reflexivity].
  all: destruct (status_code oresp =? 200)%Z; cbn [negb answer_text];
    [|reflexivity].
  all: destruct (parse_order_book (text oresp)) as [records|e];
    cbn [lift_result bind try_except run]; [reflexivity|].
  all: destruct e; reflexivity.
Qed.

End HistoryFacts.

Section VersionFacts.

Context {decoder : JSONDecoder}.

(** Whether an activation goes through, and with what data, does not
    depend on how its failure would be reported. *)
Lemma activation_stage_indep (f f' : string) (r : PyResult Response) :
  match activation_stage f r, activation_stage f' r with
  | inr v, inr v' => v = v'
  | inl _, inl _ => True
  | _, _ => False
  end.
Proof.
  destruct r as [response|e]; simpl; [|exact I].
  destruct (status_code response =? 200)%Z; [|exact I].
  unfold json_decode.
  destruct (json_loads (text response)) as [[]|]; simpl; auto.
  destruct (json_other (text response)); exact I.
Qed.

Lemma with_receiver_stats_same (result : StreamingResult) :
  with_receiver_stats (receiver_stats result) result = result.
Proof. destruct result. reflexivity. Qed.

Lemma known_stats_failed (receiver_data : json) (stats : PyResult Response) :
  request_failed stats = true -> known_stats receiver_data stats = receiver_data.
Proof.
  destruct stats as [response|e]; simpl; [|reflexivity].
  intros H. apply negb_true_iff in H. rewrite H. reflexivity.
Qed.

End VersionFacts.

(** X11 — The earlier handler and the present one report a failure of the
    client at the receiver differently.  After a sender that answered 200
    with a JSON object, an exception of [requests.post] to the receiver is
    answered by both with HTTP 500; the earlier handler gives it the
    detail of its [except] clauses, ["Microservice communication failed: "]
    and the message for an exception of [requests]; the present handler,
    with the addresses of the earlier one, gives
    ["Error: 500: Receiver microservice failed: "] and the message. *)
Theorem receiver_exception_detail_changed :
  forall (decoder : JSONDecoder) (env : Env) (w : World)
         (sender_response : Response) (sender_data : list (string * json))
         (e : PyExc),
    let a1 := respond env (post (sender_url default_config) 60) (remove OutputFile w) in
    let a2 := respond env (post (receiver_url default_config) 120) (snd a1) in
    is_some (data_file w) = true ->
    fst a1 = Value sender_response ->
    status_code sender_response = 200%Z ->
    json_loads (text sender_response) = Some (JDict sender_data) ->
    fst a2 = Exc e ->
    fst (fst (run env History.start_streaming w))
      = Raised (HTTPException 500 (except_detail e)) /\
    fst (fst (run env (start_streaming default_config) w))
      = Raised (HTTPException 500
                  ("Error: 500: Receiver microservice failed: " ++ str_exc e)) /\
    (forall msg,
        except_detail (RequestException msg)
        = "Microservice communication failed: " ++ msg).
Proof.
  intros decoder env w sresp sd e a1 a2 Hd H1 H200 Hj H2.
  split; [|split; [|reflexivity]].
  - rewrite (run_history_start_streaming_stages env w Hd). cbv zeta.
    change (post "http://127.0.0.1:8081/start-streaming" 60)
      with (post (sender_url default_config) 60).
    change (post "http://127.0.0.1:8082/start-processing" 120)
      with (post (receiver_url default_config) 120).
    fold a1. rewrite (activation_stage_object _ _ sresp sd H1 H200 Hj).
    fold a2. rewrite H2. reflexivity.
  - rewrite (run_start_streaming_stages default_config env w Hd). cbv zeta.
    fold a1. unfold sender_stage.
    rewrite (activation_stage_object _ _ sresp sd H1 H200 Hj).
    fold a2. rewrite H2. reflexivity.
Qed.

Lemma receiver_exception_detail_changed_witness :
  fst (fst (run (stateless_env receiver_timeout) History.start_streaming world0))
    = Raised (HTTPException 500 "Microservice communication failed: Read timed out") /\
  fst (fst (run (stateless_env receiver_timeout) (start_streaming default_config) world0))
    = Raised (HTTPException 500
                "Error: 500: Receiver microservice failed: Read timed out").
Proof.
  destruct (receiver_exception_detail_changed reference_decoder
              (stateless_env receiver_timeout) world0
              {| status_code := 200; text := JsonRef.dq "{'message': 'started'}" |}
              [("message", JStr "started")] (RequestException "Read timed out")
              eq_refl eq_refl eq_refl eq_refl eq_refl) as (H1 & H2 & _).
  split; [exact H1|exact H2].
Defined.

(** X12 — With services whose answers do not depend on the files and that
    leave the files alone, the present handler with the addresses of the
    earlier one and the earlier handler return on the same requests and
    raise on the same requests, with status 500 when they raise, and they
    leave the same files.  When the earlier handler returns a result, the
    present one returns the same result except for ["receiver_stats"],
    which holds the statistics of [/stats] when that request succeeds; when
    it fails, the two results are equal and so is the HTTP status of the
    two answers.  (When [/stats] succeeds the statuses can differ: a
    result is answered with HTTP 500 when it holds a number that JSON
    cannot render, and the two results hold different statistics.) *)
Theorem versions_agree_on_stateless_services :
  forall (decoder : JSONDecoder) (answers : Request -> PyResult Response) (w : World),
    let env := stateless_env answers in
    let stats := answers (get (stats_url default_config) 10) in
    let present := run env (start_streaming default_config) w in
    let earlier := run env History.start_streaming w in
    ((exists result, fst (fst present) = Returned result) <->
     (exists result, fst (fst earlier) = Returned result)) /\
    (forall e, fst (fst present) = Raised e ->
               http_status (fst (fst present)) = 500%Z /\
               http_status (fst (fst earlier)) = 500%Z) /\
    snd (fst present) = snd (fst earlier) /\
    (forall result,
        fst (fst earlier) = Returned result ->
        fst (fst present)
        = Returned (with_receiver_stats (known_stats (receiver_stats result) stats)
                      result)) /\
    (request_failed stats = true ->
     http_status (fst (fst present)) = http_status (fst (fst earlier)) /\
     forall result,
       fst (fst earlier) = Returned result -> fst (fst present) = Returned result).
Proof.
  intros decoder answers w env stats present earlier.
  assert (Main :
    ((exists detail detail',
         fst (fst present) = Raised (HTTPException 500 detail) /\
         fst (fst earlier) = Raised (HTTPException 500 detail')) \/
     (exists result,
         fst (fst earlier) = Returned result /\
         fst (fst present)
         = Returned (with_receiver_stats
                       (known_stats (receiver_stats result) stats) result))) /\
    snd (fst present) = snd (fst earlier)).
  { unfold present, earlier.
    destruct (is_some (data_file w)) eqn:Hd.
    - rewrite (run_start_streaming_stages default_config env w Hd).
      rewrite (run_history_start_streaming_stages env w Hd).
      cbv zeta. unfold sender_stage, receiver_stage.
      cbn [env stateless_env respond fst snd].
      change (post "http://127.0.0.1:8081/start-streaming" 60)
        with (post (sender_url default_config) 60).
      change (post "http://127.0.0.1:8082/start-processing" 120)
        with (post (receiver_url default_config) 120).
      change (get "http://127.0.0.1:8082/order-book" 10)
        with (get (order_book_url default_config) 10).
      set (r1 := answers (post (sender_url default_config) 60)).
      set (r2 := answers (post (receiver_url default_config) 120)).
      set (r4 := answers (get (order_book_url default_config) 10)).
      pose proof (activation_stage_indep (producer_failure_detail r1)
                    (direct_failure_detail "Sender microservice failed: " r1) r1) as I1.
      destruct (activation_stage (producer_failure_detail r1) r1) as [d1|sd],
               (activation_stage (direct_failure_detail "Sender microservice failed: " r1) r1)
                 as [d1'|sd']; try contradiction.
      + cbn [fst snd]. split; [left; eauto|reflexivity].
      + subst sd'.
        pose proof (activation_stage_indep (consumer_failure_detail r2)
                      (direct_failure_detail "Receiver microservice failed: " r2) r2) as I2.
        destruct (activation_stage (consumer_failure_detail r2) r2) as [d2|rd],
                 (activation_stage (direct_failure_detail "Receiver microservice failed: " r2) r2)
                   as [d2'|rd']; try contradiction.
        * cbn [fst snd]. split; [left; eauto|reflexivity].
        * subst rd'. destruct (request_failed r4); cbn [fst snd].
          -- split; [left; eauto|reflexivity].
          -- destruct (parse_order_book (answer_text r4)) as [records|e];
               cbn [fst snd].
             ++ split; [right|reflexivity]. eexists. split; reflexivity.
             ++ split; [left; eauto|reflexivity].
    - destruct w as [[d|] o]; [discriminate Hd|]. simpl.
      split; [left; eauto|reflexivity]. }
  destruct Main as [[(d & d' & Hp & He)|(r & He & Hp)] Hw].
  - rewrite Hp, He. repeat split; try assumption; try discriminate.
    + intros [result H]. discriminate H.
    + intros [result H]. discriminate H.
  - rewrite Hp, He. split; [|split; [|split; [|split]]].
    + split; intros _; eauto.
    + intros e H. discriminate H.
    + exact Hw.
    + intros result [= <-]. reflexivity.
    + intros Hf. rewrite known_stats_failed by exact Hf.
      rewrite with_receiver_stats_same. split; [reflexivity|].
      intros result H. exact H.
Qed.

Lemma versions_agree_on_stateless_services_witness :
  fst (fst (run (stateless_env (answer_from no_stats_table))
              (start_streaming default_config) world0))
  = Returned (aggregate (JDict [("message", JStr "started")])
                (JDict [("message", JStr "done")]) two_dicts).
Proof.
  destruct (versions_agree_on_stateless_services reference_decoder
              (answer_from no_stats_table) world0) as (_ & _ & _ & _ & H).
  apply (proj2 (H eq_refl)). reflexivity.
Defined.

(** The read-only endpoints did not change between the two versions:
    run from the same files with the same services, [GET /api/status],
    [GET /api/order-book] and [GET /api/microservices/status] of the
    earlier server do exactly what those of the present server do with its
    default addresses. *)
Lemma read_only_endpoints_unchanged :
  forall (decoder : JSONDecoder) (env : Env) (w : World),
    run env History.get_status w = run env get_status w /\
    run env History.get_order_book w = run env get_order_book w /\
    run env History.get_microservices_status w
    = run env (get_microservices_status default_config) w.
Proof. intros decoder env w. repeat split. Qed.

Section FileFacts.

Context {decoder : JSONDecoder}.
Variable cfg : Config.

Lemma remove_output_keeps_input (w : World) :
  data_file (remove OutputFile w) = data_file w.
Proof. reflexivity. Qed.

(** With services that leave the files alone, all a run does to the files
    is to remove the output file. *)
Lemma stateless_final_world (answers : Request -> PyResult Response) (w : World) :
  snd (fst (run (stateless_env answers) (start_streaming cfg) w))
  = if is_some (data_file w) then remove OutputFile w else w.
Proof.
  destruct (is_some (data_file w)) eqn:Hd.
  - rewrite (run_start_streaming_stages cfg _ w Hd). cbv zeta.
    cbn [stateless_env respond fst snd].
    destruct (sender_stage _); [reflexivity|].
    destruct (receiver_stage _); [reflexivity|].
    destruct (request_failed _); [reflexivity|].
    destruct (parse_order_book _); reflexivity.
  - destruct w as [[d|] o]; [discriminate Hd|]. reflexivity.
Qed.

End FileFacts.

(** X13 — A run never alters the input file: when the services do not
    touch it, the input file after [POST /api/start-streaming] is what it
    was before, however the run ends. *)
Theorem run_keeps_input_file :
  forall (decoder : JSONDecoder) (cfg : Config) (env : Env) (w : World),
    services_keep_input env ->
    data_file (snd (fst (run env (start_streaming cfg) w))) = data_file w.
Proof.
  intros decoder cfg env w Henv.
  destruct (is_some (data_file w)) eqn:Hd.
  - rewrite (run_start_streaming_stages cfg env w Hd). cbv zeta.
    destruct (sender_stage _).
    { cbn [fst snd]. rewrite Henv. reflexivity. }
    destruct (receiver_stage _).
    { cbn [fst snd]. rewrite !Henv. reflexivity. }
    destruct (request_failed _); [|destruct (parse_order_book _)];
      cbn [fst snd]; rewrite !Henv; reflexivity.
  - destruct w as [[d|] o]; [discriminate Hd|]. reflexivity.
Qed.

Lemma run_keeps_input_file_witness :
  data_file (snd (fst (run (writing_env happy_table two_records)
                         (start_streaming default_config) world0)))
  = Some "DBN".
Proof.
  apply (run_keeps_input_file reference_decoder default_config
           (writing_env happy_table two_records) world0).
  intros r w. simpl.
  destruct (String.eqb (url r) "http://127.0.0.1:8082/start-processing");
    reflexivity.
Defined.

(** X14 — The handler carries nothing from one run to the next.  With
    services whose answers do not depend on the files and that leave the
    files alone, a second [POST /api/start-streaming] right after a first
    one returns or raises the same, and leaves the same files. *)
Theorem second_run_repeats_first :
  forall (decoder : JSONDecoder) (cfg : Config)
         (answers : Request -> PyResult Response) (w : World),
    let env := stateless_env answers in
    let first := run env (start_streaming cfg) w in
    let second := run env (start_streaming cfg) (snd (fst first)) in
    fst second = fst first.
Proof.
  intros decoder cfg answers w env first second. unfold second, first, env.
  rewrite (stateless_final_world cfg answers w).
  destruct (is_some (data_file w)) eqn:Hd.
  - assert (Hd' : is_some (data_file (remove OutputFile w)) = true) by exact Hd.
    rewrite (run_start_streaming_present cfg _ _ Hd').
    rewrite (run_start_streaming_present cfg _ w Hd).
    change (remove OutputFile (remove OutputFile w)) with (remove OutputFile w).
    destruct (run _ (awaiting_sender cfg) (remove OutputFile w)) as [[o w'] t].
    reflexivity.
  - reflexivity.
Qed.

Section ParserComposition.

Context {decoder : JSONDecoder}.
Import PyStr.

Lemma split_nl_app (p1 p2 : string) :
  split_nl (p1 ++ String LF p2) = (split_nl p1 ++ split_nl p2)%list.
Proof.
  induction p1 as [|c p1 IH].
  - reflexivity.
  - cbn [String.append]. rewrite !split_nl_String, IH.
    destruct (is_lf c); [reflexivity|].
    destruct (split_nl_cons p1) as [l [ls ->]]. reflexivity.
Qed.

Lemma records_of_app (l1 l2 : list string) :
  records_of (l1 ++ l2)
  = match records_of l1 with
    | Exc e => Exc e
    | Value first =>
        match records_of l2 with
        | Exc e => Exc e
        | Value second => Value (first ++ second)%list
        end
    end.
Proof.
  induction l1 as [|l l1 IH]; cbn [app records_of].
  - destruct (records_of l2); reflexivity.
  - rewrite IH. destruct (decode_line l) as [[record|]|e]; [| |reflexivity];
      destruct (records_of l1); try reflexivity;
      destruct (records_of l2); reflexivity.
Qed.

Lemma final_state_app (a b : list json) :
  final_state (a ++ b)
  = match b with
    | [] => final_state a
    | _ :: _ => final_state b
    end.
Proof.
  destruct b as [|x b].
  - rewrite app_nil_r. reflexivity.
  - unfold final_state. destruct (a ++ x :: b)%list eqn:E.
    + destruct a; discriminate E.
    + rewrite <- E. clear E. induction a as [|y a IH].
      * reflexivity.
      * cbn [app]. destruct (a ++ x :: b)%list eqn:E.
        -- destruct a; discriminate E.
        -- rewrite <- IH. reflexivity.
Qed.

End ParserComposition.

(** X15 — The parse loop works line by line: on two payloads put one
    after the other with a line feed between them it does what it does on
    the first and then what it does on the second.  When it goes through
    both, the records are those of the first followed by those of the
    second, so lines that arrive later never change or reorder the records
    before them, their numbers add up, and the final state is that of the
    second payload when it has a record and that of the first otherwise.
    When the decoder raises another exception than [JSONDecodeError] on a
    line, the loop ends with the exception of the first such line. *)
Theorem parse_order_book_appended :
  forall (decoder : JSONDecoder) (p1 p2 : string),
    parse_order_book (p1 ++ String PyStr.LF p2)
      = match parse_order_book p1 with
        | Exc e => Exc e
        | Value first =>
            match parse_order_book p2 with
            | Exc e => Exc e
            | Value second => Value (first ++ second)%list
            end
        end /\
    (forall first second : list json,
        parse_order_book p1 = Value first ->
        parse_order_book p2 = Value second ->
        parse_order_book (p1 ++ String PyStr.LF p2) = Value (first ++ second)%list /\
        List.length (first ++ second) = List.length first + List.length second /\
        final_state (first ++ second)
        = match second with
          | [] => final_state first
          | _ :: _ => final_state second
          end) /\
    (forall e : PyExc,
        parse_order_book p1 = Exc e ->
        parse_order_book (p1 ++ String PyStr.LF p2) = Exc e).
Proof.
  intros decoder p1 p2.
  assert (E : parse_order_book (p1 ++ String PyStr.LF p2)
              = match parse_order_book p1 with
                | Exc e => Exc e
                | Value first =>
                    match parse_order_book p2 with
                    | Exc e => Exc e
                    | Value second => Value (first ++ second)%list
                    end
                end).
  { rewrite !parse_order_book_split, split_nl_app. apply records_of_app. }
  split; [exact E|split].
  - intros first second H1 H2. rewrite E, H1, H2. repeat split.
    + apply length_app.
    + apply final_state_app.
  - intros e H1. rewrite E, H1. reflexivity.
Qed.

Lemma parse_order_book_appended_witness :
  @parse_order_book reference_decoder
    (JsonRef.dq "{'a': 1}" ++ String PyStr.LF (JsonRef.dq "{'b': 2}"))
  = Value [JDict [("a", JInt 1)]; JDict [("b", JInt 2)]].
Proof.
  apply (proj1 (proj2 (parse_order_book_appended reference_decoder
                         (JsonRef.dq "{'a': 1}") (JsonRef.dq "{'b': 2}")))
           [JDict [("a", JInt 1)]] [JDict [("b", JInt 2)]] eq_refl eq_refl).
Defined.

(* ================================================================== *)
(** * The file inspector *)
(* ================================================================== *)

Section InspectFacts.

Import Inspect.










End InspectFacts.




